(** * Deepfake detection system: the media authenticity scoring pipeline

    A shallow embedding of [backend/app/ml/models.py].

    Conventions of the embedding.
    - Python floats are exact rationals ([Q]); equalities between scores
      are stated with [==] ([Qeq]).  Rounding and [nan] are not represented.
    - A Python dict with a fixed set of keys is a record; the free-form
      [metadata] dict of [AnalysisResult] is an association list.
    - External libraries (OpenCV, NumPy's transcendental functions, the
      classifier, face_recognition, librosa, SciPy, the file system, the
      metrics registry) are capabilities collected in records; a call that
      can raise returns a [result].
    - [try: ... except Exception as e:] is a match on a [result]. *)

From Stdlib Require Import List String Ascii ZArith QArith Qabs Qround.
From Stdlib Require Import Lia Lqa Bool Permutation DecimalString.
From Stdlib Require Import Strings.Byte.
Import ListNotations.
Open Scope string_scope.
Open Scope list_scope.
Open Scope Q_scope.

(** ** Python values and control flow *)

Module Py.

(** The outcome of a call that may raise; [Raise] carries [str(e)]. *)
Inductive result (A : Type) : Type :=
| Ok (a : A)
| Raise (msg : string).
Arguments Ok {A} a.
Arguments Raise {A} msg.

Definition bind {A B : Type} (c : result A) (k : A -> result B) : result B :=
  match c with
  | Ok a => k a
  | Raise msg => Raise msg
  end.

(** [x > y] and [x < y] on floats. *)
Definition gt (x y : Q) : bool := negb (Qle_bool x y).
Definition lt (x y : Q) : bool := negb (Qle_bool y x).

(** The builtins [min(a, b)] and [max(a, b)]: the first argument wins ties. *)
Definition min (a b : Q) : Q := if lt b a then b else a.
Definition max (a b : Q) : Q := if gt b a then b else a.

(** [int(x)] truncates toward zero. *)
Definition int (x : Q) : Z :=
  if Qle_bool 0 x then Qfloor x else Qceiling x.

(** [str(n)] for a non-negative integer, as used by the f-strings. *)
Definition str (n : nat) : string :=
  NilEmpty.string_of_uint (Nat.to_uint n).

(** [len(xs)] as a float operand. *)
Definition len {A : Type} (xs : list A) : Q :=
  inject_Z (Z.of_nat (List.length xs)).

(** [s.lower()] on ASCII text; used to compare a cue with the wording of
    the specification, which writes cues in lower case. *)
Definition lower_ascii (c : ascii) : ascii :=
  let n := nat_of_ascii c in
  if (Nat.leb 65 n && Nat.leb n 90)%bool then ascii_of_nat (n + 32) else c.

Fixpoint lower (s : string) : string :=
  match s with
  | EmptyString => EmptyString
  | String c s' => String (lower_ascii c) (lower s')
  end.

End Py.

Notation "x <- c ;; k" := (Py.bind c (fun x => k))
  (at level 61, c at next level, right associativity).

(** ** NumPy arrays and reductions *)

Module Np.

(** A two-dimensional array: its shape and its entries. Entries outside
    the shape are never read. *)
Record ndarray (A : Type) : Type := mk_ndarray {
  shape0 : nat;
  shape1 : nat;
  item : nat -> nat -> A
}.
Arguments mk_ndarray {A} _ _ _.
Arguments shape0 {A} _.
Arguments shape1 {A} _.
Arguments item {A} _ _ _.

(** Element-wise application. *)
Definition amap {A B : Type} (f : A -> B) (a : ndarray A) : ndarray B :=
  mk_ndarray (shape0 a) (shape1 a) (fun i j => f (item a i j)).

(** Element-wise combination of two arrays of the same shape. *)
Definition amap2 {A B C : Type} (f : A -> B -> C)
  (a : ndarray A) (b : ndarray B) : ndarray C :=
  mk_ndarray (shape0 a) (shape1 a) (fun i j => f (item a i j) (item b i j)).

(** [a.ravel()]: the entries in row-major order. *)
Definition ravel {A : Type} (a : ndarray A) : list A :=
  flat_map (fun i => map (item a i) (seq 0 (shape1 a))) (seq 0 (shape0 a)).

(** [a[r0:r1, c0:c1]] with non-negative bounds; Python clamps them. *)
Definition slice {A : Type} (a : ndarray A) (r0 r1 c0 c1 : nat) : ndarray A :=
  let r0' := Nat.min r0 (shape0 a) in
  let c0' := Nat.min c0 (shape1 a) in
  mk_ndarray (Nat.min r1 (shape0 a) - r0') (Nat.min c1 (shape1 a) - c0')
             (fun i j => item a (r0' + i) (c0' + j)).

(** [a[r0:, c0:]]. *)
Definition slice_from {A : Type} (a : ndarray A) (r0 c0 : nat) : ndarray A :=
  slice a r0 (shape0 a) c0 (shape1 a).

(** [a.size]. *)
Definition size {A : Type} (a : ndarray A) : nat := (shape0 a * shape1 a)%nat.

(** [np.sum], [np.mean], [np.var] (population variance) on the entries.
    Fractions are kept in lowest terms ([Qred] does not change the value). *)
Definition sum (xs : list Q) : Q := fold_right (fun x acc => Qred (x + acc)) 0 xs.

Definition mean (xs : list Q) : Q := Qred (sum xs / Py.len xs).

Definition var (xs : list Q) : Q :=
  let m := mean xs in
  mean (map (fun x => (x - m) * (x - m)) xs).

(** [np.sum(cond)] for a boolean array: how many entries hold. *)
Definition count_true {A : Type} (p : A -> bool) (xs : list A) : Q :=
  Py.len (filter p xs).

(** [np.diff]. *)
Fixpoint diff (xs : list Q) : list Q :=
  match xs with
  | x :: (y :: _) as tl => (y - x) :: diff tl
  | _ => []
  end.

(** The transcendental functions, which have no rational counterpart. *)
Record Float : Type := mk_Float {
  sqrt : Q -> Q;
  log : Q -> Q;
  pi : Q;
  sqrt_nonneg : forall x, 0 <= sqrt x;
  sqrt_zero : forall x, x == 0 -> sqrt x == 0
}.

(** [np.std] is the square root of [np.var]. *)
Definition std (F : Float) (xs : list Q) : Q := sqrt F (var xs).

End Np.

Import Py Np.

(** ** Results and external capabilities *)

(** The dict every model class returns. The first six keys are always
    present; the others are set by the video and audio models only. *)
Record ModelResult : Type := mk_ModelResult {
  is_fake : bool;
  confidence : Q;
  fake_probability : Q;
  real_probability : Q;
  visual_cues : list string;
  model_used : string;
  frames_analyzed : option nat;
  temporal_consistency : option Q;
  duration : option Q;
  sample_rate : option Z
}.

(** A colour sample; the channel order is that of the array it comes from. *)
Definition pixel : Type := (Z * Z * Z)%type.

(** A face box as [face_recognition] reports it: top, right, bottom, left. *)
Definition face_location : Type := (nat * nat * nat * nat)%type.

(** A decoded video: [isOpened()], [CAP_PROP_FPS] and the frames that
    [read()] delivers before it reports [ret = False]. *)
Record Capture : Type := mk_Capture {
  isOpened : bool;
  fps : Q;
  stream : list (ndarray pixel)
}.

(** OpenCV. Colour conversion is per pixel; the transforms, the filter
    and the edge detector are taken as given. *)
Record Cv2 : Type := mk_Cv2 {
  imread : string -> option (ndarray pixel);
  gray_of_bgr : pixel -> Z;
  hsv_of_bgr : pixel -> pixel;
  gray_of_rgb : pixel -> Z;
  dct : ndarray Q -> result (ndarray Q);
  filter2D : ndarray Z -> ndarray Q -> result (ndarray Z);
  Canny : ndarray Z -> Z -> Z -> result (ndarray byte);
  VideoCapture : string -> result Capture;
  imwrite : string -> ndarray pixel -> result unit
}.

(** [cv2.cvtColor]: rejects an empty array, converts pixel by pixel. *)
Definition cvtColor {A B : Type} (code : A -> B) (src : ndarray A)
  : result (ndarray B) :=
  if Nat.eqb (size src) 0 then Raise "(-215:Assertion failed) !_src.empty()"
  else Ok (amap code src).

(** [cv2.absdiff] on 8-bit arrays. *)
Definition absdiff (a b : ndarray Z) : ndarray Z :=
  amap2 (fun x y => Z.abs (x - y)) a b.

(** The pretrained classifier: whether it was loaded at construction, and
    the top-10 softmax probabilities it yields for an image file
    ([Image.open] up to [torch.topk]). *)
Record Classifier : Type := mk_Classifier {
  loaded : bool;
  top_probs : string -> result (list Q)
}.

(** The face detector. *)
Record FaceRecognition : Type := mk_FaceRecognition {
  load_image_file : string -> result (ndarray pixel);
  face_locations : ndarray pixel -> result (list face_location);
  face_encodings : ndarray pixel -> list face_location -> result (list (list Q))
}.

(** The value of a uint8 array entry. *)
Definition uint8_value (b : byte) : Q := inject_Z (Z.of_N (Byte.to_N b)).

(** ** [class RealImageModel] *)

Module RealImageModel.

Section Model.

Variable F : Float.
Variable cv2 : Cv2.
Variable clf : Classifier.
Variable face_recognition : FaceRecognition.

Definition _detect_compression_artifacts (gray_image : ndarray Z) : result Q :=
  d <- dct cv2 (amap inject_Z gray_image) ;;
  let high_freq := Np.sum (map Qabs (ravel (slice_from d 8 8))) in
  let total_energy := Np.sum (map Qabs (ravel d)) in
  Ok (Py.min (high_freq / (total_energy + (1 # 1000000))) 1).

(** [np.ones((3,3), np.float32) / 9]. *)
Definition mean_kernel : ndarray Q := mk_ndarray 3 3 (fun _ _ => 1 / 9).

Definition _analyze_noise_patterns (gray_image : ndarray Z) : result Q :=
  let kernel := mean_kernel in
  smoothed <- filter2D cv2 gray_image kernel ;;
  let noise := absdiff gray_image smoothed in
  let noise_var := Np.var (map inject_Z (ravel noise)) in
  Ok (Py.min (noise_var / 1000) 1).

Definition _analyze_color_consistency (hsv_image : ndarray pixel) : Q :=
  let saturation := amap (fun p : pixel => let '(_, s, _) := p in s) hsv_image in
  let value := amap (fun p : pixel => let '(_, _, v) := p in v) hsv_image in
  let sat_std := Np.std F (map inject_Z (ravel saturation)) in
  let val_std := Np.std F (map inject_Z (ravel value)) in
  let consistency := 1 / (1 + sat_std / 50 + val_std / 50) in
  Py.min consistency 1.

(** The three [if] statements and the default cue of [_fallback_analysis]. *)
Definition fallback_cues (artifacts_score noise_score color_consistency : Q)
  : list string :=
  let visual_cues :=
    (if gt artifacts_score (6 # 10) then ["Compression artifacts detected"] else [])
    ++ (if gt noise_score (6 # 10) then ["Inconsistent noise patterns"] else [])
    ++ (if lt color_consistency (4 # 10) then ["Color inconsistencies detected"] else [])
  in
  match visual_cues with
  | [] => ["No obvious artifacts detected"]
  | _ => visual_cues
  end.

(** The dict of the [except] branch of [_fallback_analysis]. *)
Definition error_fallback : ModelResult :=
  mk_ModelResult false (1 # 2) (1 # 2) (1 # 2) ["Analysis failed"] "Error Fallback"
                 None None None None.

(** The [try] block of [_fallback_analysis]. *)
Definition fallback_body (image_path : string) : result ModelResult :=
  image <- match imread cv2 image_path with
           | None => Raise "Could not load image"
           | Some image => Ok image
           end ;;
  gray <- cvtColor (gray_of_bgr cv2) image ;;
  hsv <- cvtColor (hsv_of_bgr cv2) image ;;
  artifacts_score <- _detect_compression_artifacts gray ;;
  noise_score <- _analyze_noise_patterns gray ;;
  let color_consistency := _analyze_color_consistency hsv in
  let fake_score := (artifacts_score + noise_score + (1 - color_consistency)) / 3 in
  let confidence := Py.min (fake_score * (8 # 10) + (2 # 10)) (95 # 100) in
  Ok (mk_ModelResult (gt fake_score (1 # 2)) confidence fake_score (1 - fake_score)
        (fallback_cues artifacts_score noise_score color_consistency)
        "Traditional CV Analysis" None None None None).

Definition _fallback_analysis (image_path : string) : ModelResult :=
  match fallback_body image_path with
  | Ok r => r
  | Raise _ => error_fallback
  end.

Definition _calculate_fake_score_from_predictions (probs : list Q) : Q :=
  let entropy :=
    - Np.sum (map (fun p => p * log F (p + (1 # 10000000000))) probs) in
  let entropy_score := 1 - Py.min (entropy / 2) 1 in
  let top_pred_dominance :=
    match probs with
    | p0 :: _ => p0
    | [] => 1 # 2
    end in
  let dominance_score := top_pred_dominance in
  let uniformity_score := 1 - Np.std F probs in
  let fake_score :=
    entropy_score * (4 # 10) + dominance_score * (4 # 10)
    + uniformity_score * (2 # 10) in
  Py.min (Py.max fake_score (1 # 10)) (9 # 10).

Definition _check_face_artifacts (face_image : ndarray pixel) : result bool :=
  gray <- cvtColor (gray_of_rgb cv2) face_image ;;
  edges <- Canny cv2 gray 50 150 ;;
  let edge_density :=
    Np.sum (map uint8_value (ravel edges))
    / inject_Z (Z.of_nat (shape0 edges * shape1 edges)) in
  Ok (gt edge_density 1000).

(** [image[top:bottom, left:right]]. *)
Definition face_region (image : ndarray pixel) (loc : face_location)
  : ndarray pixel :=
  let '(top, right_, bottom, left_) := loc in
  slice image top bottom left_ right_.

(** The [for i, face_location in enumerate(face_locations)] loop, together
    with the enclosing [except]: an exception leaves the cues collected so
    far and appends the failure cue. *)
Fixpoint face_loop (image : ndarray pixel) (i : nat)
  (locations : list face_location) (cues : list string) : list string :=
  match locations with
  | [] => cues
  | face_location :: rest =>
      let face_image := face_region image face_location in
      match _check_face_artifacts face_image with
      | Raise _ => cues ++ ["Face analysis failed"]
      | Ok true =>
          face_loop image (S i) rest
            (cues ++ [("Face " ++ str (i + 1) ++ ": Potential artifacts detected")%string])
      | Ok false =>
          face_loop image (S i) rest
            (cues ++ [("Face " ++ str (i + 1) ++ ": No obvious artifacts")%string])
      end
  end.

Definition _extract_visual_cues (image_path : string) : list string :=
  let cues := [] in
  match load_image_file face_recognition image_path with
  | Raise _ => cues ++ ["Face analysis failed"]
  | Ok image =>
      match face_locations face_recognition image with
      | Raise _ => cues ++ ["Face analysis failed"]
      | Ok locations =>
          if Nat.ltb 0 (List.length locations) then
            face_loop image 0 locations
              (cues ++ [("Detected " ++ str (List.length locations) ++ " face(s)")%string])
          else cues ++ ["No faces detected"]
      end
  end.

Definition _huggingface_analysis (image_path : string) : ModelResult :=
  match top_probs clf image_path with
  | Raise _ => _fallback_analysis image_path
  | Ok probs =>
      let fake_score := _calculate_fake_score_from_predictions probs in
      let visual_cues := _extract_visual_cues image_path in
      mk_ModelResult (gt fake_score (1 # 2))
        (Py.min (fake_score * (7 # 10) + (3 # 10)) (9 # 10))
        fake_score (1 - fake_score) visual_cues
        "Hugging Face ResNet-50 + CV Analysis" None None None None
  end.

(** Neither branch can raise, so the outer [except] of the source is
    never entered. *)
Definition analyze_image (image_path : string) : ModelResult :=
  if loaded clf then _huggingface_analysis image_path
  else _fallback_analysis image_path.

End Model.

End RealImageModel.

(** ** The interpreter and the operating system *)

(** The order in which [list(set(xs))] enumerates a set of strings. The
    language leaves it unspecified; in CPython it follows the string hash,
    which is salted per interpreter process. Within one process it is a
    function of the insertion sequence. *)
Record SetOrder : Type := mk_SetOrder {
  list_of_set : list string -> list string;
  list_of_set_nodup : forall xs, NoDup (list_of_set xs);
  list_of_set_elems : forall xs x, In x (list_of_set xs) <-> In x xs
}.

(** The file system and the clock. [stat] gives the size of an existing
    path, so [os.path.exists] and [os.path.getsize] agree. *)
Record Os : Type := mk_Os {
  stat : string -> option Z;
  remove : string -> result unit;
  makedirs : string -> result unit;
  basename : string -> string;
  utcnow : Q;
  elapsed : Q;
  uuid4 : string
}.

Definition exists_ (os : Os) (path : string) : bool :=
  match stat os path with
  | Some _ => true
  | None => false
  end.

Definition getsize (os : Os) (path : string) : result Z :=
  match stat os path with
  | Some n => Ok n
  | None => Raise ("[Errno 2] No such file or directory: '" ++ path ++ "'")%string
  end.

(** ** [class RealVideoModel] *)

Module RealVideoModel.

Section Model.

Variable F : Float.
Variable cv2 : Cv2.
Variable clf : Classifier.
Variable face_recognition : FaceRecognition.
Variable os : Os.
Variable py : SetOrder.

Definition temp_dir : string := "/tmp/video_frames".

(** [os.path.join(temp_dir, f"frame_{frame_count}.jpg")]. *)
Definition frame_path_of (frame_count : nat) : string :=
  (temp_dir ++ "/frame_" ++ str frame_count ++ ".jpg")%string.

(** The [while True] loop of [_extract_frames]. [src] holds the frames
    that [cap.read()] still delivers; when it is exhausted [ret] is false
    and the loop breaks. [%] raises on a zero interval. *)
Fixpoint read_loop (frame_interval : Z) (src : list (ndarray pixel))
  (frames : list string) (frame_count : nat) : result (list string) :=
  match src with
  | [] => Ok frames
  | frame :: rest =>
      if Z.eqb frame_interval 0 then Raise "integer modulo by zero"
      else
        frames' <-
          (if Z.eqb (Z.of_nat frame_count mod frame_interval) 0 then
             let frame_path := frame_path_of frame_count in
             _ <- imwrite cv2 frame_path frame ;;
             Ok (frames ++ [frame_path])
           else Ok frames) ;;
        if Nat.leb 30 (List.length frames') then Ok frames'
        else read_loop frame_interval rest frames' (S frame_count)
  end.

(** The [try] block of [_extract_frames]. *)
Definition extract_frames_body (video_path : string) (frame_rate : Z)
  : result (list string) :=
  cap <- VideoCapture cv2 video_path ;;
  if negb (isOpened cap) then Ok []
  else if Z.eqb frame_rate 0 then Raise "float division by zero"
  else
    let frame_interval := Py.int (fps cap / inject_Z frame_rate) in
    _ <- makedirs os temp_dir ;;
    read_loop frame_interval (stream cap) [] 0.

Definition _extract_frames (video_path : string) (frame_rate : Z) : list string :=
  match extract_frames_body video_path frame_rate with
  | Ok frames => frames
  | Raise _ => []
  end.

Definition _analyze_temporal_consistency (fake_probs : list Q) : Q :=
  if Nat.ltb (List.length fake_probs) 2 then 1
  else
    let variance := Np.var fake_probs in
    let consistency := 1 / (1 + variance * 10) in
    Py.min consistency 1.

Definition _fallback_video_analysis (video_path : string) : ModelResult :=
  mk_ModelResult false (1 # 2) (1 # 2) (1 # 2) ["Video analysis failed"]
                 "Fallback Analysis" (Some 0%nat) (Some (1 # 2)) None None.

(** The [for frame_path in frames] loop: score the frame, then delete
    its file. *)
Fixpoint analyze_frames (frames : list string) : result (list ModelResult) :=
  match frames with
  | [] => Ok []
  | frame_path :: rest =>
      let result :=
        if loaded clf
        then RealImageModel._huggingface_analysis F cv2 clf face_recognition frame_path
        else RealImageModel._fallback_analysis F cv2 frame_path in
      _ <- remove os frame_path ;;
      frame_results <- analyze_frames rest ;;
      Ok (result :: frame_results)
  end.

(** [list(set(all_cues))[:5]]. *)
Definition unique_cues_of (all_cues : list string) : list string :=
  firstn 5 (list_of_set py all_cues).

(** The aggregation that follows the loop. *)
Definition aggregate (frames : list string) (frame_results : list ModelResult)
  : ModelResult :=
  let fake_probs := map fake_probability frame_results in
  let confidences := map confidence frame_results in
  let temporal_score := _analyze_temporal_consistency fake_probs in
  let avg_fake_prob := Np.mean fake_probs in
  let avg_confidence := Np.mean confidences in
  let final_confidence :=
    avg_confidence * ((7 # 10) + (3 # 10) * temporal_score) in
  let all_cues := flat_map visual_cues frame_results in
  let unique_cues := unique_cues_of all_cues in
  mk_ModelResult (gt avg_fake_prob (1 # 2)) final_confidence avg_fake_prob
    (1 - avg_fake_prob) unique_cues "Temporal CV Analysis"
    (Some (List.length frames)) (Some temporal_score) None None.

Definition analyze_video (video_path : string) : ModelResult :=
  let frames := _extract_frames video_path 1 in
  match frames with
  | [] => _fallback_video_analysis video_path
  | _ =>
      match analyze_frames frames with
      | Ok frame_results => aggregate frames frame_results
      | Raise _ => _fallback_video_analysis video_path
      end
  end.

End Model.

End RealVideoModel.

(** ** [class RealAudioModel] *)

(** librosa's loader and feature extractors. Feature matrices are lists
    of rows. *)
Record Librosa : Type := mk_Librosa {
  load : string -> Z -> result (list Q);
  mfcc : list Q -> Z -> nat -> result (list (list Q));
  spectral_centroid : list Q -> Z -> result (list Q);
  spectral_rolloff : list Q -> Z -> result (list Q)
}.

(** [np.unwrap(np.angle(signal.hilbert(audio)))]. *)
Record Signal : Type := mk_Signal {
  unwrapped_phase : list Q -> result (list Q)
}.

Module RealAudioModel.

Section Model.

Variable F : Float.
Variable librosa : Librosa.
Variable signal : Signal.

Definition sample_rate_ : Z := 16000.

Definition _detect_audio_artifacts (audio : list Q) (mfcc_ : list (list Q)) : Q :=
  let mfcc_var := map Np.var mfcc_ in
  let artifact_score := Np.mean mfcc_var / 1000 in
  Py.min artifact_score 1.

Definition _analyze_spectral_features (centroid rolloff : list Q) : Q :=
  let centroid_std := Np.std F centroid in
  let rolloff_std := Np.std F rolloff in
  let inconsistency := (centroid_std + rolloff_std) / 1000 in
  Py.min inconsistency 1.

(** For a clip of fewer than two samples [phase_diff] is empty and NumPy
    divides by zero (a [nan] with a warning); the statements below about
    audio scores are made for clips with at least two phase samples. *)
Definition _analyze_phase_consistency (audio : list Q) : result Q :=
  phase_unwrapped <- unwrapped_phase signal audio ;;
  let phase_diff := Np.diff phase_unwrapped in
  let discontinuities :=
    count_true (fun d => gt (Qabs d) (pi F / 2)) phase_diff in
  let discontinuity_score := discontinuities / Py.len phase_diff in
  Ok (Py.min (discontinuity_score * 10) 1).

Definition audio_cues (artifacts_score spectral_score phase_score : Q)
  : list string :=
  let cues :=
    (if gt artifacts_score (6 # 10) then ["Audio compression artifacts detected"] else [])
    ++ (if gt spectral_score (6 # 10) then ["Spectral inconsistencies found"] else [])
    ++ (if gt phase_score (6 # 10) then ["Phase inconsistencies detected"] else [])
  in
  match cues with
  | [] => ["No obvious audio artifacts detected"]
  | _ => cues
  end.

Definition _fallback_audio_analysis (audio_path : string) : ModelResult :=
  mk_ModelResult false (1 # 2) (1 # 2) (1 # 2) ["Audio analysis failed"]
                 "Fallback Analysis" None None (Some 0) (Some 0%Z).

(** The [try] block of [analyze_audio]. *)
Definition analyze_audio_body (audio_path : string) : result ModelResult :=
  let sr := sample_rate_ in
  audio <- load librosa audio_path sample_rate_ ;;
  mfcc_ <- mfcc librosa audio sr 13 ;;
  centroid <- spectral_centroid librosa audio sr ;;
  rolloff <- spectral_rolloff librosa audio sr ;;
  let artifacts_score := _detect_audio_artifacts audio mfcc_ in
  let spectral_score := _analyze_spectral_features centroid rolloff in
  phase_score <- _analyze_phase_consistency audio ;;
  let fake_score := (artifacts_score + spectral_score + phase_score) / 3 in
  let confidence := Py.min (fake_score * (8 # 10) + (2 # 10)) (95 # 100) in
  Ok (mk_ModelResult (gt fake_score (1 # 2)) confidence fake_score (1 - fake_score)
        (audio_cues artifacts_score spectral_score phase_score)
        "Audio Spectral Analysis" None None
        (Some (Py.len audio / inject_Z sr)) (Some sr)).

Definition analyze_audio (audio_path : string) : ModelResult :=
  match analyze_audio_body audio_path with
  | Ok r => r
  | Raise _ => _fallback_audio_analysis audio_path
  end.

End Model.

End RealAudioModel.

(** ** [app/core/database.py]: the public result record *)

Module Database.

(** One entry of [face_data], as [ImageProcessor.extract_faces] builds it. *)
Record FaceDatum : Type := mk_FaceDatum {
  bbox : list Z;
  face_confidence : Q;
  encoding : list Q;
  face_id : nat
}.

(** A value stored in the [metadata] dict. *)
Inductive MetaValue : Type :=
| VFloat (x : Q)
| VInt (n : Z)
| VStr (s : string)
| VCues (cues : list string)
| VFaces (faces : list FaceDatum)
| VTemporal (consistency_score : Q) (artifacts : list string)
| VFeatures (features : list (string * list (list Q))).

Record AnalysisResult : Type := mk_AnalysisResult {
  file_id : string;
  file_name : string;
  file_type : string;
  file_size : Z;
  upload_time : Q;
  analysis_time : Q;
  is_fake : bool;
  confidence : Q;
  model_used : string;
  processing_time : Q;
  metadata : list (string * MetaValue);
  status : string;
  error_message : option string
}.

(** [metadata.get(key)]. *)
Fixpoint get (key : string) (d : list (string * MetaValue)) : option MetaValue :=
  match d with
  | [] => None
  | (k, v) :: d' => if String.eqb k key then Some v else get key d'
  end.

End Database.

(** ** [app/core/monitoring.py] *)

Module ModelMetrics.

(** The labelled counter [MODEL_PREDICTIONS]. *)
Record Registry : Type := mk_Registry {
  inc : string -> string -> string -> result unit
}.

Definition record_prediction (reg : Registry)
  (model_type prediction : string) (confidence : Q) : result unit :=
  let confidence_level :=
    if gt confidence (8 # 10) then "high"
    else if gt confidence (6 # 10) then "medium" else "low" in
  inc reg model_type prediction confidence_level.

End ModelMetrics.

(** ** The processors and [class ModelManager] *)

(** [ImageProcessor.extract_faces]: the faces of an image, or [[]] when
    anything raises. *)
Definition extract_faces (fr : FaceRecognition) (image_path : string)
  : list Database.FaceDatum :=
  let body :=
    image <- load_image_file fr image_path ;;
    locations <- face_locations fr image ;;
    encodings <- face_encodings fr image locations ;;
    Ok (map (fun '(i, ((top, right_, bottom, left_), encoding)) =>
               Database.mk_FaceDatum
                 [Z.of_nat left_; Z.of_nat top;
                  (Z.of_nat right_ - Z.of_nat left_)%Z;
                  (Z.of_nat bottom - Z.of_nat top)%Z]
                 (9 # 10) encoding i)
            (combine (seq 0 (List.length locations)) (combine locations encodings)))
  in
  match body with
  | Ok face_data => face_data
  | Raise _ => []
  end.

(** [VideoProcessor.extract_frames] followed by
    [VideoProcessor.analyze_temporal_consistency], and
    [AudioProcessor.extract_spectrogram]. Each wraps its whole body in
    [try ... except] and returns a default, so neither raises; what they
    report is not constrained here. *)
Record Processors : Type := mk_Processors {
  temporal_analysis : string -> Database.MetaValue;
  extract_spectrogram : string -> Database.MetaValue
}.

Module ModelManager.

Section Manager.

Variable F : Float.
Variable cv2 : Cv2.
Variable clf : Classifier.
Variable face_recognition : FaceRecognition.
Variable librosa : Librosa.
Variable signal : Signal.
Variable os : Os.
Variable py : SetOrder.
Variable metrics : ModelMetrics.Registry.
Variable processors : Processors.

(** [x if x is not None else default], for the four optional arguments. *)
Definition or_default {A : Type} (x : option A) (default : A) : A :=
  match x with
  | Some a => a
  | None => default
  end.

(** The [except Exception as e] branch shared by the three operations. *)
Definition error_result (file_type path : string) (file_id file_name : option string)
  (file_size : option Z) (upload_time : option Q) (e : string)
  : Database.AnalysisResult :=
  let file_size :=
    or_default file_size
      (match stat os path with
       | Some n => n
       | None => 0%Z
       end) in
  let file_name := or_default file_name (basename os path) in
  let upload_time := or_default upload_time (utcnow os) in
  let file_id := or_default file_id (uuid4 os) in
  Database.mk_AnalysisResult file_id file_name file_type file_size upload_time
    (utcnow os) false 0 "Error" (elapsed os) [("error", Database.VStr e)]
    "completed" None.

(** The tail of each [try] block: record the prediction, fill in the
    file information and build the result. *)
Definition build_result (file_type path : string) (result : ModelResult)
  (file_id file_name : option string) (file_size : option Z)
  (upload_time : option Q) (extra : list (string * Database.MetaValue))
  : Py.result Database.AnalysisResult :=
  _ <- ModelMetrics.record_prediction metrics file_type
         (if is_fake result then "fake" else "real") (confidence result) ;;
  file_size <- match file_size with
               | None => getsize os path
               | Some n => Ok n
               end ;;
  let file_name := or_default file_name (basename os path) in
  let upload_time := or_default upload_time (utcnow os) in
  let file_id := or_default file_id (uuid4 os) in
  Ok (Database.mk_AnalysisResult file_id file_name file_type file_size upload_time
        (utcnow os) (is_fake result) (confidence result) (model_used result)
        (elapsed os)
        ([("fake_probability", Database.VFloat (fake_probability result));
          ("real_probability", Database.VFloat (real_probability result));
          ("visual_cues", Database.VCues (visual_cues result))] ++ extra)
        "completed" None).

(** The [try] block of [analyze_image]. *)
Definition analyze_image_body (image_path : string) (file_id file_name : option string)
  (file_size : option Z) (upload_time : option Q)
  : Py.result Database.AnalysisResult :=
  if negb (exists_ os image_path)
  then Raise ("Image file not found: " ++ image_path)%string
  else
    let result := RealImageModel.analyze_image F cv2 clf face_recognition image_path in
    let faces := extract_faces face_recognition image_path in
    build_result "image" image_path result file_id file_name file_size upload_time
      [("faces_detected", Database.VInt (Z.of_nat (List.length faces)));
       ("face_data", Database.VFaces faces)].

Definition analyze_image (image_path : string) (file_id file_name : option string)
  (file_size : option Z) (upload_time : option Q) : Database.AnalysisResult :=
  match analyze_image_body image_path file_id file_name file_size upload_time with
  | Ok analysis_result => analysis_result
  | Raise e => error_result "image" image_path file_id file_name file_size upload_time e
  end.

(** The [try] block of [analyze_video]; the optional keys are read with
    [result.get(key, default)]. *)
Definition analyze_video_body (video_path : string) (file_id file_name : option string)
  (file_size : option Z) (upload_time : option Q)
  : Py.result Database.AnalysisResult :=
  if negb (exists_ os video_path)
  then Raise ("Video file not found: " ++ video_path)%string
  else
    let result :=
      RealVideoModel.analyze_video F cv2 clf face_recognition os py video_path in
    let temporal := temporal_analysis processors video_path in
    build_result "video" video_path result file_id file_name file_size upload_time
      [("frames_analyzed",
        Database.VInt (Z.of_nat (or_default (frames_analyzed result) 0%nat)));
       ("temporal_consistency",
        Database.VFloat (or_default (temporal_consistency result) (1 # 2)));
       ("temporal_analysis", temporal)].

Definition analyze_video (video_path : string) (file_id file_name : option string)
  (file_size : option Z) (upload_time : option Q) : Database.AnalysisResult :=
  match analyze_video_body video_path file_id file_name file_size upload_time with
  | Ok analysis_result => analysis_result
  | Raise e => error_result "video" video_path file_id file_name file_size upload_time e
  end.

(** The [try] block of [analyze_audio]. *)
Definition analyze_audio_body (audio_path : string) (file_id file_name : option string)
  (file_size : option Z) (upload_time : option Q)
  : Py.result Database.AnalysisResult :=
  if negb (exists_ os audio_path)
  then Raise ("Audio file not found: " ++ audio_path)%string
  else
    let result := RealAudioModel.analyze_audio F librosa signal audio_path in
    let spectrogram := extract_spectrogram processors audio_path in
    build_result "audio" audio_path result file_id file_name file_size upload_time
      [("duration", Database.VFloat (or_default (duration result) 0));
       ("sample_rate", Database.VInt (or_default (sample_rate result) 0%Z));
       ("spectrogram_features", spectrogram)].

Definition analyze_audio (audio_path : string) (file_id file_name : option string)
  (file_size : option Z) (upload_time : option Q) : Database.AnalysisResult :=
  match analyze_audio_body audio_path file_id file_name file_size upload_time with
  | Ok analysis_result => analysis_result
  | Raise e => error_result "audio" audio_path file_id file_name file_size upload_time e
  end.

End Manager.

End ModelManager.

(** ** Concrete capabilities used by the examples *)

Module Demo.

(** A square root to six decimals, a second-order logarithm around 1 and
    a rational approximation of pi. *)
Definition sqrt6 (x : Q) : Q :=
  if Qle_bool x 0 then 0
  else inject_Z (Z.sqrt (Qfloor (x * 1000000000000))) / 1000000.

Definition float : Float.
Proof.
  refine (mk_Float sqrt6 (fun x => (x - 1) - (x - 1) * (x - 1) / 2) (355 # 113) _ _).
  - intro x. unfold sqrt6. destruct (Qle_bool x 0); [apply Qle_refl|].
    apply Qle_shift_div_l; [reflexivity|]. rewrite Qmult_0_l.
    change 0 with (inject_Z 0). rewrite <- Zle_Qle. apply Z.sqrt_nonneg.
  - intros x Hx. unfold sqrt6.
    assert (H : Qle_bool x 0 = true) by (apply Qle_bool_iff; rewrite Hx; apply Qle_refl).
    rewrite H. reflexivity.
Defined.

(** Two iteration orders for [set]: one keeps the order in which the
    surviving occurrences were inserted, the other is its reverse. *)
Definition insertion_order : SetOrder :=
  mk_SetOrder (nodup string_dec) (NoDup_nodup string_dec) (nodup_In string_dec).

Definition reverse_order : SetOrder :=
  mk_SetOrder (fun xs => rev (nodup string_dec xs))
    (fun xs => NoDup_rev (NoDup_nodup string_dec xs))
    (fun xs x =>
       iff_trans (iff_sym (in_rev (nodup string_dec xs) x))
                 (nodup_In string_dec xs x)).

(** Images. *)
Definition solid (h w : nat) (p : pixel) : ndarray pixel :=
  mk_ndarray h w (fun _ _ => p).

Definition gray100 : ndarray pixel := solid 100 100 (128, 128, 128)%Z.

Definition portrait : ndarray pixel :=
  mk_ndarray 4 4 (fun i j => (Z.of_nat (60 * i), Z.of_nat (60 * j), 200)%Z).

(** The files on disk. Every extracted frame but the first is a solid
    gray tile; the first shows the portrait. *)
Definition disk (path : string) : option (ndarray pixel) :=
  if String.eqb path "gray.png" then Some gray100
  else if String.eqb path "portrait.jpg" then Some portrait
  else if String.eqb path "/tmp/video_frames/frame_0.jpg" then Some portrait
  else if String.prefix "/tmp/video_frames/" path then Some (solid 4 4 (128, 128, 128)%Z)
  else None.

Definition luma (p : pixel) : Z :=
  let '(b, g, r) := p in ((114 * b + 587 * g + 299 * r + 500) / 1000)%Z.

Definition luma_rgb (p : pixel) : Z :=
  let '(r, g, b) := p in ((114 * b + 587 * g + 299 * r + 500) / 1000)%Z.

Definition hsv (p : pixel) : pixel :=
  let '(b, g, r) := p in
  let v := Z.max b (Z.max g r) in
  let m := Z.min b (Z.min g r) in
  (0, if Z.eqb v 0 then 0 else 255 * (v - m) / v, v)%Z.

(** The cosine transform of a constant square array: the DC term is the
    side times the value, every other coefficient is zero. Other inputs
    are not supported by this stand-in. *)
Definition dct_const (a : ndarray Q) : result (ndarray Q) :=
  if (Nat.eqb (shape0 a) (shape1 a)
      && forallb (fun x => Qeq_bool x (item a 0 0)) (ravel a))%bool
  then Ok (mk_ndarray (shape0 a) (shape1 a)
             (fun i j => if (Nat.eqb i 0 && Nat.eqb j 0)%bool
                         then inject_Z (Z.of_nat (shape0 a)) * item a 0 0
                         else 0))
  else Raise "dct: unsupported array".

(** A 3x3 mean filter with replicated borders and rounding. *)
Definition box3 (a : ndarray Z) (kernel : ndarray Q) : result (ndarray Z) :=
  let clamp_row i := Nat.min i (shape0 a - 1)%nat in
  let clamp_col j := Nat.min j (shape1 a - 1)%nat in
  Ok (mk_ndarray (shape0 a) (shape1 a)
        (fun i j =>
           let rows := [clamp_row (i - 1)%nat; i; clamp_row (i + 1)%nat] in
           let cols := [clamp_col (j - 1)%nat; j; clamp_col (j + 1)%nat] in
           let total :=
             fold_right Z.add 0%Z
               (flat_map (fun r => map (fun c => item a r c) cols) rows) in
           ((total + 4) / 9)%Z)).

(** An edge detector that marks every pixel: the largest edge density an
    8-bit edge map can have. *)
Definition all_edges (gray : ndarray Z) (lo hi : Z) : result (ndarray byte) :=
  Ok (amap (fun _ => xff) gray).

Definition captures (path : string) : result Capture :=
  if String.eqb path "clip.mp4"
  then Ok (mk_Capture true 30 (repeat (solid 4 4 (128, 128, 128)%Z) (100 * 100)))
  else if String.eqb path "short.mp4"
  then Ok (mk_Capture true 1 (repeat (solid 4 4 (128, 128, 128)%Z) 3))
  else if String.eqb path "broken.mp4"
  then Ok (mk_Capture false 0 [])
  else Raise "cannot open video".

Definition cv2 : Cv2 :=
  mk_Cv2 disk luma hsv luma_rgb dct_const box3 all_edges captures
         (fun _ _ => Ok tt).

(** The classifier, absent and present. *)
Definition no_classifier : Classifier :=
  mk_Classifier false (fun _ => Raise "'NoneType' object is not callable").

Definition resnet : Classifier :=
  mk_Classifier true
    (fun _ => Ok [55 # 100; 20 # 100; 10 # 100; 5 # 100; 3 # 100;
                  2 # 100; 2 # 100; 1 # 100; 1 # 100; 1 # 100]).

(** A face detector that reports one face on any image whose first pixel
    is not mid-gray, and none otherwise. *)
Definition faces : FaceRecognition :=
  mk_FaceRecognition
    (fun path => match disk path with
                 | Some image => Ok image
                 | None => Raise "No such file"
                 end)
    (fun image => match item image 0 0 with
                  | (128, 128, 128)%Z => Ok []
                  | _ => Ok [(0, 2, 2, 0)%nat]
                  end)
    (fun image locations => Ok (map (fun _ => [1 # 10; 2 # 10]) locations)).

Definition os : Os :=
  mk_Os (fun path => if String.eqb path "missing.jpg" then None else Some 2048%Z)
        (fun _ => Ok tt) (fun _ => Ok tt) (fun path => path) 1700000000 (1 # 4)
        "00000000-0000-4000-8000-000000000000".

Definition librosa : Librosa :=
  mk_Librosa
    (fun path sr => if String.eqb path "voice.wav"
                    then Ok [0; 1 # 2; 1; 1 # 2; 0; - (1 # 2); - 1; - (1 # 2)]
                    else Raise "Format not recognised")
    (fun audio sr n_mfcc => Ok (repeat [1; 2; 3] n_mfcc))
    (fun audio sr => Ok [1500; 1520; 1490])
    (fun audio sr => Ok [3000; 3100; 2950]).

Definition signal : Signal :=
  mk_Signal (fun audio => Ok (map (fun x => x * 3) audio)).

Definition metrics : ModelMetrics.Registry :=
  ModelMetrics.mk_Registry (fun _ _ _ => Ok tt).

Definition broken_metrics : ModelMetrics.Registry :=
  ModelMetrics.mk_Registry (fun _ _ _ => Raise "Incorrect label names").

Definition processors : Processors :=
  mk_Processors (fun _ => Database.VTemporal 1 [])
                (fun _ => Database.VFeatures []).

End Demo.

(** ** The wording of the specification *)

Module Spec.

(** "clamped to [0,1]". *)
Definition clamp01 (x : Q) : Q := Py.max (Py.min x 1) 0.

(** "temporalConsistency = 1 / (1 + 10 variance(f_1..f_n)), clamped to
    [0,1]; defined as 1.0 when n < 2". *)
Definition temporal_consistency (f : list Q) : Q :=
  if Nat.ltb (List.length f) 2 then 1
  else clamp01 (1 / (1 + 10 * Np.var f)).

(** The per-face cue of face number [i] (counted from 0), given whether
    its edge density exceeds the threshold. *)
Definition face_cue (i : nat) (artifacts : bool) : string :=
  ("Face " ++ str (i + 1)
   ++ (if artifacts then ": Potential artifacts detected"
       else ": No obvious artifacts"))%string.

Fixpoint per_face_cues (i : nat) (verdicts : list bool) : list string :=
  match verdicts with
  | [] => []
  | b :: rest => face_cue i b :: per_face_cues (S i) rest
  end.

(** "Face cues: ... emit per-face cue ...; if zero faces found, emit
    'no faces detected'": what a cue list must contain, given the verdict
    for each detected face. *)
Definition has_face_cues (verdicts : list bool) (cues : list string) : Prop :=
  (verdicts = [] -> In "No faces detected" cues)
  /\ (forall i b, nth_error verdicts i = Some b -> In (face_cue i b) cues).

(** "fakeProbability + realProbability == 1 and both in [0,1];
    confidence in [0,1]; isFake == (fakeProbability > 0.5)", on the dict
    of a model class. *)
Definition score_invariant (r : ModelResult) : Prop :=
  fake_probability r + real_probability r == 1
  /\ 0 <= fake_probability r <= 1
  /\ 0 <= real_probability r <= 1
  /\ 0 <= confidence r <= 1
  /\ is_fake r = gt (fake_probability r) (1 # 2).

(** The same invariant on the public result, whose probabilities are
    stored in [metadata]. *)
Definition outcome_invariant (r : Database.AnalysisResult) : Prop :=
  exists fp rp,
    Database.get "fake_probability" (Database.metadata r) = Some (Database.VFloat fp)
    /\ Database.get "real_probability" (Database.metadata r) = Some (Database.VFloat rp)
    /\ fp + rp == 1
    /\ 0 <= fp <= 1
    /\ 0 <= rp <= 1
    /\ 0 <= Database.confidence r <= 1
    /\ Database.is_fake r = gt fp (1 # 2).

(** "tagged modelUsed = error with confidence 0.0 and the triggering
    error message preserved in the metadata". *)
Definition error_outcome (r : Database.AnalysisResult) (e : string) : Prop :=
  Database.model_used r = "Error"
  /\ Py.lower (Database.model_used r) = "error"
  /\ Database.confidence r = 0
  /\ Database.is_fake r = false
  /\ Database.metadata r = [("error", Database.VStr e)].

(** An outcome that carries a verdict: the probability pair and the cues
    are present and the tag names a scoring path. *)
Definition scored_outcome (r : Database.AnalysisResult) : Prop :=
  Database.model_used r <> "Error"
  /\ exists fp rp cues,
      Database.get "fake_probability" (Database.metadata r) = Some (Database.VFloat fp)
      /\ Database.get "real_probability" (Database.metadata r) = Some (Database.VFloat rp)
      /\ Database.get "visual_cues" (Database.metadata r) = Some (Database.VCues cues).

(** A well-formed public result for the given modality. *)
Definition well_formed (modality : string) (r : Database.AnalysisResult) : Prop :=
  Database.file_type r = modality
  /\ Database.status r = "completed"
  /\ (scored_outcome r \/ exists e, error_outcome r e).

(** "decode or extraction failure" of the audio path: the loader raises,
    or one of the feature extractors raises on the decoded clip. *)
Definition audio_failure (librosa : Librosa) (signal : Signal)
  (audio_path : string) : Prop :=
  match load librosa audio_path 16000 with
  | Raise _ => True
  | Ok audio =>
      (exists e, mfcc librosa audio 16000 13 = Raise e)
      \/ (exists e, spectral_centroid librosa audio 16000 = Raise e)
      \/ (exists e, spectral_rolloff librosa audio 16000 = Raise e)
      \/ (exists e, unwrapped_phase signal audio = Raise e)
  end.

End Spec.

(** ** [class VideoProcessor] *)

Module VideoProcessor.

Section Processor.

Variable cv2 : Cv2.
Variable fr : FaceRecognition.
Variable os : Os.

(** [cap.get(cv2.CAP_PROP_FRAME_COUNT)] and
    [face_recognition.face_distance([a], b)[0]]. *)
Variable frame_count_prop : Capture -> Q.
Variable face_distance : list Q -> list Q -> result Q.

(** The [try] block of [extract_frames]. It differs from
    [RealVideoModel._extract_frames] in raising when the capture is not
    open and in computing [duration = total_frames / fps], which raises
    on a zero frame rate of the source. *)
Definition extract_frames_body (video_path : string) (frame_rate : Z)
  : result (list string) :=
  cap <- VideoCapture cv2 video_path ;;
  if negb (isOpened cap) then Raise "Could not open video file"
  else
    let total_frames := Py.int (frame_count_prop cap) in
    if Qeq_bool (fps cap) 0 then Raise "float division by zero"
    else
      let duration := inject_Z total_frames / fps cap in
      if Z.eqb frame_rate 0 then Raise "float division by zero"
      else
        let frame_interval := Py.int (fps cap / inject_Z frame_rate) in
        _ <- makedirs os RealVideoModel.temp_dir ;;
        RealVideoModel.read_loop cv2 frame_interval (stream cap) [] 0.

Definition extract_frames (video_path : string) (frame_rate : Z) : list string :=
  match extract_frames_body video_path frame_rate with
  | Ok frames => frames
  | Raise _ => []
  end.

(** The two lists the comparison loops append to. *)
Definition tally : Type := (list Q * list string)%type.

(** [for next_face in next_faces] for one [curr_face]. *)
Fixpoint compare_with (i : nat) (curr_face : Database.FaceDatum)
  (next_faces : list Database.FaceDatum) (t : tally) : result tally :=
  match next_faces with
  | [] => Ok t
  | next_face :: rest =>
      distance <- face_distance (Database.encoding curr_face)
                    (Database.encoding next_face) ;;
      let '(consistency_scores, artifacts) := t in
      compare_with i curr_face rest
        (if lt distance (6 # 10)
         then (consistency_scores ++ [1 - distance], artifacts)
         else (consistency_scores,
               artifacts ++ [("Face inconsistency at frame " ++ str i)%string]))
  end.

(** [for curr_face in current_faces]. *)
Fixpoint compare_faces (i : nat) (current_faces next_faces : list Database.FaceDatum)
  (t : tally) : result tally :=
  match current_faces with
  | [] => Ok t
  | curr_face :: rest =>
      t' <- compare_with i curr_face next_faces t ;;
      compare_faces i rest next_faces t'
  end.

(** [for i in range(len(face_data) - 1)], over the frames paired with
    their faces: compare frame [i] with frame [i + 1] when both show a
    face, then delete the file of frame [i]. *)
Fixpoint pair_loop (i : nat) (items : list (string * list Database.FaceDatum))
  (t : tally) : result tally :=
  match items with
  | (frame_path, current_faces) :: (((_, next_faces) :: _) as rest) =>
      t' <- (match current_faces, next_faces with
             | _ :: _, _ :: _ => compare_faces i current_faces next_faces t
             | _, _ => Ok t
             end) ;;
      _ <- remove os frame_path ;;
      pair_loop (S i) rest t'
  | _ => Ok t
  end.

(** The dict [{"consistency_score": ..., "artifacts": ...}] as a pair. *)
Definition analyze_temporal_consistency_body (frames : list string)
  : result (Q * list string) :=
  if Nat.ltb (List.length frames) 2 then Ok (1, [])
  else
    let face_data := map (extract_faces fr) frames in
    t <- pair_loop 0 (combine frames face_data) ([], []) ;;
    let '(consistency_scores, artifacts) := t in
    _ <- (match frames with
          | [] => Ok tt
          | _ => remove os (last frames "")
          end) ;;
    let avg_consistency :=
      match consistency_scores with
      | [] => 1
      | _ => Np.mean consistency_scores
      end in
    Ok (avg_consistency, artifacts).

Definition analyze_temporal_consistency (frames : list string) : Q * list string :=
  match analyze_temporal_consistency_body frames with
  | Ok r => r
  | Raise _ => (1 # 2, ["Analysis failed"])
  end.

End Processor.

End VideoProcessor.

(** ** Further concrete capabilities used by the examples *)

Module Examples.

(** A time-lapse source: one frame every two seconds. *)
Definition timelapse : Cv2 :=
  mk_Cv2 Demo.disk Demo.luma Demo.hsv Demo.luma_rgb Demo.dct_const Demo.box3
         Demo.all_edges
         (fun _ => Ok (mk_Capture true (1 # 2)
                         (repeat (Demo.solid 4 4 (128, 128, 128)%Z) 5)))
         (fun _ _ => Ok tt).

(** A source of 100 frames at three frames per second. *)
Definition burst : Cv2 :=
  mk_Cv2 Demo.disk Demo.luma Demo.hsv Demo.luma_rgb Demo.dct_const Demo.box3
         Demo.all_edges
         (fun _ => Ok (mk_Capture true 3
                         (repeat (Demo.solid 4 4 (128, 128, 128)%Z) 100)))
         (fun _ _ => Ok tt).

(** A file system on which nothing can be deleted. *)
Definition read_only : Os :=
  mk_Os (stat Demo.os) (fun _ => Raise "[Errno 30] Read-only file system")
        (makedirs Demo.os) (basename Demo.os) (utcnow Demo.os) (elapsed Demo.os)
        (uuid4 Demo.os).


(** A face-distance measure: the distance between first coordinates. *)
Definition first_coordinate_distance (a b : list Q) : result Q :=
  match a, b with
  | x :: _, y :: _ => Ok (Qabs (x - y))
  | _, _ => Raise "operands could not be broadcast together"
  end.

End Examples.

(** ** Paths, settings and the HTTP layer *)

(** [str] methods used on file names. *)
Module Str.

(** [s.startswith(prefix)] and [s.endswith(suffix)]. *)
Definition startswith (s pre : string) : bool := String.prefix pre s.

Fixpoint endswith (s suf : string) : bool :=
  if String.eqb s suf then true
  else match s with
       | EmptyString => false
       | String _ s' => endswith s' suf
       end.

(** [s.rfind(c)] for a single character; [None] stands for -1. *)
Fixpoint rfind (c : ascii) (s : string) : option nat :=
  match s with
  | EmptyString => None
  | String x s' =>
      match rfind c s' with
      | Some i => Some (S i)
      | None => if Ascii.eqb x c then Some 0%nat else None
      end
  end.

(** [c in s] for a single character. *)
Fixpoint has (c : ascii) (s : string) : bool :=
  match s with
  | EmptyString => false
  | String x s' => (Ascii.eqb x c || has c s')%bool
  end.

(** [s.split(c)]; [cur] is the piece being read. *)
Fixpoint split (c : ascii) (s cur : string) : list string :=
  match s with
  | EmptyString => [cur]
  | String x s' =>
      if Ascii.eqb x c then cur :: split c s' EmptyString
      else split c s' (cur ++ String x EmptyString)%string
  end.

End Str.

(** [os.path] on a POSIX system. *)
Module OsPath.

(** [os.path.join(a, *p)]: an absolute component discards what precedes. *)
Fixpoint join (a : string) (p : list string) : string :=
  match p with
  | [] => a
  | b :: rest =>
      join (if Str.startswith b "/" then b
            else if (String.eqb a "" || Str.endswith a "/")%bool then (a ++ b)%string
            else (a ++ "/" ++ b)%string)
           rest
  end.

(** [os.path.splitext(p)[1]]: the text from the last dot of the last
    component, provided a character other than a dot precedes it there. *)
Definition splitext_ext (p : string) : string :=
  match Str.rfind "." p with
  | None => ""
  | Some dot_index =>
      let filename_index :=
        match Str.rfind "/" p with
        | None => 0%nat
        | Some sep_index => S sep_index
        end in
      if Nat.leb filename_index dot_index then
        if existsb (fun c => negb (Ascii.eqb c "."))
             (list_ascii_of_string
                (substring filename_index (dot_index - filename_index) p))
        then substring dot_index (String.length p - dot_index) p
        else ""
      else ""
  end.

End OsPath.

(** [pathlib.PurePosixPath]. *)
Module PurePath.

(** The components of a path: empty pieces and "." are dropped. *)
Definition parts (path : string) : list string :=
  filter (fun x => (negb (String.eqb x "") && negb (String.eqb x "."))%bool)
         (Str.split "/" path EmptyString).

(** [Path(path).name]. *)
Definition name (path : string) : string := last (parts path) "".

(** [Path(path).suffix]. *)
Definition suffix (path : string) : string :=
  let name := name path in
  match Str.rfind "." name with
  | Some i =>
      if (Nat.ltb 0 i && Nat.ltb i (String.length name - 1))%bool
      then substring i (String.length name - i) name
      else ""
  | None => ""
  end.

End PurePath.

(** [app/core/config.py]. *)
Module Settings.

Definition MAX_FILE_SIZE : Z := 100 * 1024 * 1024.
Definition UPLOAD_DIR : string := "./uploads".
Definition ALLOWED_IMAGE_EXTENSIONS : list string :=
  [".jpg"; ".jpeg"; ".png"; ".bmp"; ".tiff"].
Definition ALLOWED_VIDEO_EXTENSIONS : list string :=
  [".mp4"; ".avi"; ".mov"; ".mkv"; ".webm"].
Definition ALLOWED_AUDIO_EXTENSIONS : list string :=
  [".wav"; ".mp3"; ".flac"; ".m4a"; ".aac"].

(** The directories the module creates when it is imported. *)
Definition created_directories : list string :=
  [UPLOAD_DIR;
   OsPath.join UPLOAD_DIR ["images"];
   OsPath.join UPLOAD_DIR ["videos"];
   OsPath.join UPLOAD_DIR ["audio"];
   OsPath.join UPLOAD_DIR ["temp"]].

End Settings.

(** The outcome of an endpoint: a response body, an [HTTPException], or
    an exception that escapes the handler. *)
Inductive Http (A : Type) : Type :=
| Respond (body : A)
| HTTPException (status_code : nat) (detail : string)
| Unhandled (e : string).
Arguments Respond {A} body.
Arguments HTTPException {A} status_code detail.
Arguments Unhandled {A} e.

(** [x in xs] for strings. *)
Definition mem (x : string) (xs : list string) : bool := existsb (String.eqb x) xs.

(** [app/api/v1/endpoints/upload.py]. [lower] is the ASCII part of
    [str.lower]. *)
Module Upload.

Definition get_file_type (filename : string) : Http string :=
  let ext := Py.lower (PurePath.suffix filename) in
  if mem ext Settings.ALLOWED_IMAGE_EXTENSIONS then Respond "image"
  else if mem ext Settings.ALLOWED_VIDEO_EXTENSIONS then Respond "video"
  else if mem ext Settings.ALLOWED_AUDIO_EXTENSIONS then Respond "audio"
  else HTTPException 400 ("Unsupported file type: " ++ ext)%string.

Definition get_upload_path (file_type filename : string) : string :=
  OsPath.join Settings.UPLOAD_DIR [file_type; filename].

(** [f"{file_id}{file_extension}"] in [upload_file]. *)
Definition safe_filename (file_id filename : string) : string :=
  (file_id ++ PurePath.suffix filename)%string.

End Upload.

(** [app/api/routers/upload.py]. *)
Module UploadRouter.

Section Router.

(** [open(file_path, "wb")] followed by [buffer.write(content)], and
    [str(e)] for an [HTTPException]. *)
Variable write_file : string -> list byte -> result unit.
Variable str_http : nat -> string -> string.

(** The [try] block of [upload_file]; an [HTTPException] raised inside
    it is an exception like any other. *)
Definition upload_file_body (filename : string) (content : list byte)
  : result (list (string * string)) :=
  let file_extension := Py.lower (OsPath.splitext_ext filename) in
  let allowed_extensions :=
    Settings.ALLOWED_IMAGE_EXTENSIONS ++ Settings.ALLOWED_VIDEO_EXTENSIONS
    ++ Settings.ALLOWED_AUDIO_EXTENSIONS in
  if negb (mem file_extension allowed_extensions)
  then Raise (str_http 400 ("File type " ++ file_extension ++ " not supported")%string)
  else
    let file_path := OsPath.join Settings.UPLOAD_DIR [filename] in
    _ <- write_file file_path content ;;
    Ok [("message", "File uploaded successfully");
        ("filename", filename);
        ("file_path", file_path)].

Definition upload_file (filename : string) (content : list byte)
  : Http (list (string * string)) :=
  match upload_file_body filename content with
  | Ok response => Respond response
  | Raise e => HTTPException 500 e
  end.

End Router.

End UploadRouter.

(** [app/api/v1/endpoints/models.py]: the direct analysis endpoints. *)
Module Direct.

(** The value of an attribute of an [AnalysisResult]. *)
Inductive Attr : Type :=
| AStr (s : string)
| AInt (n : Z)
| AFloat (x : Q)
| ABool (b : bool)
| AMeta (d : list (string * Database.MetaValue))
| ANone.

(** [getattr(result, name)]: the model has exactly the declared fields. *)
Definition getattr (r : Database.AnalysisResult) (name : string) : result Attr :=
  if String.eqb name "file_id" then Ok (AStr (Database.file_id r))
  else if String.eqb name "file_name" then Ok (AStr (Database.file_name r))
  else if String.eqb name "file_type" then Ok (AStr (Database.file_type r))
  else if String.eqb name "file_size" then Ok (AInt (Database.file_size r))
  else if String.eqb name "upload_time" then Ok (AFloat (Database.upload_time r))
  else if String.eqb name "analysis_time" then Ok (AFloat (Database.analysis_time r))
  else if String.eqb name "is_fake" then Ok (ABool (Database.is_fake r))
  else if String.eqb name "confidence" then Ok (AFloat (Database.confidence r))
  else if String.eqb name "model_used" then Ok (AStr (Database.model_used r))
  else if String.eqb name "processing_time"
  then Ok (AFloat (Database.processing_time r))
  else if String.eqb name "metadata" then Ok (AMeta (Database.metadata r))
  else if String.eqb name "status" then Ok (AStr (Database.status r))
  else if String.eqb name "error_message"
  then Ok (match Database.error_message r with
           | Some m => AStr m
           | None => ANone
           end)
  else Raise ("'AnalysisResult' object has no attribute '" ++ name ++ "'")%string.

Section Endpoints.

(** Writing the temporary file changes the file system. *)
Variable write_file : Os -> string -> list byte -> result Os.

(** The body shared by the three endpoints: [analyze] is the call to the
    model manager on the file system that holds the temporary file. *)
Definition analyze_direct (extensions : list string) (modality : string)
  (analyze : Os -> string -> Database.AnalysisResult)
  (os : Os) (filename : string) (content : list byte)
  : Http (list (string * Attr)) :=
  if negb (existsb (Str.endswith (Py.lower filename)) extensions)
  then HTTPException 400 ("Invalid " ++ modality ++ " file type")%string
  else
    let temp_path := ("/tmp/" ++ filename)%string in
    let written := write_file os temp_path content in
    let os' := match written with
               | Ok os' => os'
               | Raise _ => os
               end in
    let body :=
      _ <- written ;;
      let result := analyze os' temp_path in
      prediction <- getattr result "prediction" ;;
      confidence_score <- getattr result "confidence_score" ;;
      processing_time <- getattr result "processing_time" ;;
      model_used <- getattr result "model_used" ;;
      metadata <- getattr result "metadata" ;;
      visual_cues <- getattr result "visual_cues" ;;
      Ok [("prediction", prediction); ("confidence_score", confidence_score);
          ("processing_time", processing_time); ("model_used", model_used);
          ("metadata", metadata); ("visual_cues", visual_cues)] in
    let outcome :=
      match body with
      | Ok response => Respond response
      | Raise e => HTTPException 500 ("Analysis failed: " ++ e)%string
      end in
    (* finally *)
    if exists_ os' temp_path then
      match remove os' temp_path with
      | Ok _ => outcome
      | Raise e => Unhandled e
      end
    else outcome.

Variable F : Float.
Variable cv2 : Cv2.
Variable clf : Classifier.
Variable fr : FaceRecognition.
Variable librosa : Librosa.
Variable signal : Signal.
Variable py : SetOrder.
Variable metrics : ModelMetrics.Registry.
Variable processors : Processors.

Definition analyze_image_direct : Os -> string -> list byte -> Http (list (string * Attr)) :=
  analyze_direct [".jpg"; ".jpeg"; ".png"; ".bmp"; ".tiff"] "image"
    (fun os temp_path =>
       ModelManager.analyze_image F cv2 clf fr os metrics temp_path
         None None None None).

Definition analyze_video_direct : Os -> string -> list byte -> Http (list (string * Attr)) :=
  analyze_direct [".mp4"; ".avi"; ".mov"; ".mkv"; ".webm"] "video"
    (fun os temp_path =>
       ModelManager.analyze_video F cv2 clf fr os py metrics processors temp_path
         None None None None).

Definition analyze_audio_direct : Os -> string -> list byte -> Http (list (string * Attr)) :=
  analyze_direct [".wav"; ".mp3"; ".flac"; ".m4a"; ".aac"] "audio"
    (fun os temp_path =>
       ModelManager.analyze_audio F librosa signal os metrics processors temp_path
         None None None None).

End Endpoints.

End Direct.

(** * Properties *)

(** ** Comparisons, [min] and [max] *)

Lemma gt_true_iff (x y : Q) : gt x y = true <-> y < x.
Proof.
  unfold gt. rewrite negb_true_iff, <- not_true_iff_false, Qle_bool_iff.
  split; [apply Qnot_le_lt | apply Qlt_not_le].
Qed.

Lemma gt_false_iff (x y : Q) : gt x y = false <-> x <= y.
Proof.
  unfold gt. rewrite negb_false_iff. apply Qle_bool_iff.
Qed.

Lemma lt_true_iff (x y : Q) : lt x y = true <-> x < y.
Proof. unfold lt. apply (gt_true_iff y x). Qed.

Lemma lt_false_iff (x y : Q) : lt x y = false <-> y <= x.
Proof. unfold lt. apply (gt_false_iff y x). Qed.

Lemma gt_compat (x x' y y' : Q) : x == x' -> y == y' -> gt x y = gt x' y'.
Proof. intros Hx Hy. unfold gt. now rewrite Hx, Hy. Qed.

Lemma lt_compat (x x' y y' : Q) : x == x' -> y == y' -> lt x y = lt x' y'.
Proof. intros Hx Hy. unfold lt. now rewrite Hx, Hy. Qed.

Lemma min_cases (a b : Q) :
  (b < a /\ Py.min a b = b) \/ (a <= b /\ Py.min a b = a).
Proof.
  unfold Py.min. destruct (lt b a) eqn:E.
  - left. split; [now apply lt_true_iff | reflexivity].
  - right. split; [now apply lt_false_iff | reflexivity].
Qed.

Lemma max_cases (a b : Q) :
  (a < b /\ Py.max a b = b) \/ (b <= a /\ Py.max a b = a).
Proof.
  unfold Py.max. destruct (gt b a) eqn:E.
  - left. split; [now apply gt_true_iff | reflexivity].
  - right. split; [now apply gt_false_iff | reflexivity].
Qed.

Lemma min_le_l (a b : Q) : Py.min a b <= a.
Proof. destruct (min_cases a b) as [[H ->] | [H ->]]; lra. Qed.

Lemma min_le_r (a b : Q) : Py.min a b <= b.
Proof. destruct (min_cases a b) as [[H ->] | [H ->]]; lra. Qed.

Lemma min_glb (a b c : Q) : c <= a -> c <= b -> c <= Py.min a b.
Proof. intros. destruct (min_cases a b) as [[H' ->] | [H' ->]]; lra. Qed.

Lemma min_compat (a a' b b' : Q) : a == a' -> b == b' -> Py.min a b == Py.min a' b'.
Proof.
  intros Ha Hb. unfold Py.min. rewrite (lt_compat b b' a a' Hb Ha).
  destruct (lt b' a'); assumption.
Qed.

Lemma max_bounds (a lo : Q) : lo <= Py.max a lo /\ a <= Py.max a lo.
Proof. destruct (max_cases a lo) as [[H ->] | [H ->]]; lra. Qed.

(** ** Sums, means and variances *)

Lemma sum_cons (x : Q) (xs : list Q) : Np.sum (x :: xs) == x + Np.sum xs.
Proof. unfold Np.sum. cbn [fold_right]. apply Qred_correct. Qed.

Lemma sum_nonneg (xs : list Q) : Forall (fun x => 0 <= x) xs -> 0 <= Np.sum xs.
Proof.
  induction 1 as [|x xs Hx _ IH].
  - apply Qle_refl.
  - rewrite sum_cons. lra.
Qed.


Lemma len_cons {A : Type} (x : A) (xs : list A) : Py.len (x :: xs) == 1 + Py.len xs.
Proof.
  unfold Py.len. cbn [List.length]. rewrite Nat2Z.inj_succ, <- Z.add_1_l.
  rewrite inject_Z_plus. reflexivity.
Qed.

Lemma len_nonneg {A : Type} (xs : list A) : 0 <= Py.len xs.
Proof.
  unfold Py.len. change 0 with (inject_Z 0). rewrite <- Zle_Qle. lia.
Qed.

Lemma len_pos {A : Type} (xs : list A) : xs <> [] -> 0 < Py.len xs.
Proof.
  destruct xs as [|x xs]; [congruence|]. intros _.
  rewrite len_cons. pose proof (len_nonneg xs). lra.
Qed.

Lemma sum_bounds (lo hi : Q) (xs : list Q) :
  Forall (fun x => lo <= x <= hi) xs ->
  lo * Py.len xs <= Np.sum xs <= hi * Py.len xs.
Proof.
  induction 1 as [|x xs Hx _ IH].
  - change (Py.len (@nil Q)) with 0. change (Np.sum []) with 0. lra.
  - rewrite sum_cons, len_cons. destruct Hx. lra.
Qed.

Lemma mean_eq (xs : list Q) : Np.mean xs == Np.sum xs / Py.len xs.
Proof. unfold Np.mean. apply Qred_correct. Qed.

Lemma div_nonneg (a b : Q) : 0 <= a -> 0 <= b -> 0 <= a / b.
Proof.
  intros Ha Hb. unfold Qdiv. apply Qmult_le_0_compat; [assumption|].
  apply Qinv_le_0_compat. assumption.
Qed.

Lemma mean_nonneg (xs : list Q) : Forall (fun x => 0 <= x) xs -> 0 <= Np.mean xs.
Proof.
  intro H. rewrite mean_eq. apply div_nonneg; [now apply sum_nonneg | apply len_nonneg].
Qed.

Lemma mean_bounds (lo hi : Q) (xs : list Q) :
  xs <> [] -> Forall (fun x => lo <= x <= hi) xs -> lo <= Np.mean xs <= hi.
Proof.
  intros Hne H. rewrite mean_eq. pose proof (len_pos xs Hne) as Hl.
  destruct (sum_bounds lo hi xs H) as [H1 H2]. split.
  - apply Qle_shift_div_l; assumption.
  - apply Qle_shift_div_r; assumption.
Qed.

Lemma var_nonneg (xs : list Q) : 0 <= Np.var xs.
Proof.
  unfold Np.var. cbv zeta. apply mean_nonneg. apply Forall_forall. intros y Hy.
  apply in_map_iff in Hy. destruct Hy as [x [<- _]].
  generalize (x - Np.mean xs). intro t.
  destruct (Qlt_le_dec t 0) as [Ht | Ht].
  - setoid_replace (t * t) with ((- t) * (- t)) by ring.
    apply Qmult_le_0_compat; lra.
  - apply Qmult_le_0_compat; assumption.
Qed.



(** ** Video: temporal consistency *)

Lemma consistency_pos (v : Q) : 0 <= v -> 0 < 1 / (1 + v * 10).
Proof.
  intro Hv. unfold Qdiv. rewrite Qmult_1_l. apply Qinv_lt_0_compat. lra.
Qed.

Lemma consistency_le_1 (v : Q) : 0 <= v -> 1 / (1 + v * 10) <= 1.
Proof.
  intro Hv. apply Qle_shift_div_r; lra.
Qed.

Lemma temporal_consistency_range (fake_probs : list Q) :
  0 < RealVideoModel._analyze_temporal_consistency fake_probs <= 1.
Proof.
  unfold RealVideoModel._analyze_temporal_consistency.
  destruct (Nat.ltb (List.length fake_probs) 2); [lra|]. cbv zeta.
  pose proof (var_nonneg fake_probs) as Hv.
  pose proof (consistency_pos _ Hv). pose proof (consistency_le_1 _ Hv).
  destruct (min_cases (1 / (1 + Np.var fake_probs * 10)) 1) as [[H1 ->] | [H1 ->]]; lra.
Qed.

(** C7. For every list of per-frame fake probabilities the temporal
    consistency score computed by [_analyze_temporal_consistency] is the
    value the specification defines: [1 / (1 + 10 * variance)] clamped to
    [0,1] for two or more frames and exactly [1] for fewer; in particular
    it is exactly [1] for a single frame and for none. *)
Theorem temporal_consistency_matches_spec (fake_probs : list Q) :
  RealVideoModel._analyze_temporal_consistency fake_probs
    == Spec.temporal_consistency fake_probs
  /\ (forall f, RealVideoModel._analyze_temporal_consistency [f] = 1)
  /\ RealVideoModel._analyze_temporal_consistency [] = 1.
Proof.
  split; [|split; [intro f; reflexivity | reflexivity]].
  unfold RealVideoModel._analyze_temporal_consistency, Spec.temporal_consistency.
  destruct (Nat.ltb (List.length fake_probs) 2); [reflexivity|]. cbv zeta.
  pose proof (var_nonneg fake_probs) as Hv.
  assert (E : 1 / (1 + Np.var fake_probs * 10) == 1 / (1 + 10 * Np.var fake_probs)).
  { apply Qmult_comp; [reflexivity|]. apply Qinv_comp. ring. }
  unfold Spec.clamp01.
  pose proof (consistency_pos _ Hv) as Hpos.
  pose proof (min_compat _ _ 1 1 E (Qeq_refl 1)) as Hmin.
  destruct (max_cases (Py.min (1 / (1 + 10 * Np.var fake_probs)) 1) 0) as [[H ->] | [H ->]].
  - exfalso. rewrite <- Hmin in H.
    pose proof (min_glb (1 / (1 + Np.var fake_probs * 10)) 1
                  (Py.min (1 / (1 + Np.var fake_probs * 10)) 1)) as G.
    destruct (min_cases (1 / (1 + Np.var fake_probs * 10)) 1) as [[H1 E1] | [H1 E1]];
      rewrite E1 in H; lra.
  - exact Hmin.
Qed.

(** ** Video: frame extraction *)

Lemma read_loop_bound (cv2 : Cv2) (frame_interval : Z) (src : list (ndarray pixel)) :
  forall (frames : list string) (frame_count : nat) (out : list string),
    (List.length frames < 30)%nat ->
    RealVideoModel.read_loop cv2 frame_interval src frames frame_count = Ok out ->
    (List.length out <= 30)%nat.
Proof.
  induction src as [|frame rest IH]; intros frames frame_count out Hlen Hrun.
  - simpl in Hrun. injection Hrun as <-. lia.
  - cbn [RealVideoModel.read_loop] in Hrun.
    destruct (Z.eqb frame_interval 0); [discriminate|].
    destruct (Z.eqb (Z.of_nat frame_count mod frame_interval) 0).
    + destruct (imwrite cv2 (RealVideoModel.frame_path_of frame_count) frame);
        [|discriminate]. cbn [Py.bind] in Hrun.
      destruct (Nat.leb 30 (List.length (frames ++ [RealVideoModel.frame_path_of frame_count]))) eqn:E.
      * injection Hrun as <-. rewrite length_app. simpl. lia.
      * apply Nat.leb_gt in E. eapply IH; eassumption.
    + cbn [Py.bind] in Hrun.
      destruct (Nat.leb 30 (List.length frames)) eqn:E.
      * injection Hrun as <-. lia.
      * eapply IH; eassumption.
Qed.

(** C8. Whatever the video source delivers, [_extract_frames] returns at
    most 30 frame files; a source of 10,000 decodable frames at 30 fps,
    sampled at the target rate of one frame per second, yields exactly 30. *)
Theorem extract_frames_at_most_30 (cv2 : Cv2) (os : Os) (video_path : string)
  (frame_rate : Z) :
  (List.length (RealVideoModel._extract_frames cv2 os video_path frame_rate) <= 30)%nat
  /\ List.length (RealVideoModel._extract_frames Demo.cv2 Demo.os "clip.mp4" 1) = 30%nat.
Proof.
  split; [|vm_compute; reflexivity].
  unfold RealVideoModel._extract_frames.
  destruct (RealVideoModel.extract_frames_body cv2 os video_path frame_rate)
    as [frames|msg] eqn:E; [|simpl; lia].
  unfold RealVideoModel.extract_frames_body in E.
  destruct (VideoCapture cv2 video_path) as [cap|]; [|discriminate].
  cbn [Py.bind] in E.
  destruct (negb (isOpened cap)); [injection E as <-; simpl; lia|].
  destruct (Z.eqb frame_rate 0); [discriminate|].
  destruct (makedirs os RealVideoModel.temp_dir); [|discriminate].
  cbn [Py.bind] in E.
  eapply read_loop_bound; [|exact E]. simpl. lia.
Qed.

(** ** Image: the face-artifact check *)

Lemma flat_map_length_const {A B : Type} (f : A -> list B) (w : nat) (l : list A) :
  (forall x, List.length (f x) = w) ->
  List.length (flat_map f l) = (List.length l * w)%nat.
Proof.
  intro Hf. induction l as [|x l IH]; [reflexivity|].
  cbn [flat_map]. rewrite length_app, Hf, IH. reflexivity.
Qed.

Lemma ravel_length {A : Type} (a : ndarray A) : List.length (ravel a) = size a.
Proof.
  unfold ravel, size.
  rewrite (flat_map_length_const _ (shape1 a)).
  - now rewrite length_seq.
  - intro i. now rewrite length_map, length_seq.
Qed.

Lemma uint8_value_range (b : byte) : 0 <= uint8_value b <= 255.
Proof.
  unfold uint8_value. pose proof (Byte.to_N_bounded b) as Hb.
  split.
  - change 0 with (inject_Z 0). rewrite <- Zle_Qle. lia.
  - change 255 with (inject_Z 255). rewrite <- Zle_Qle. lia.
Qed.

Lemma edge_density_le_255 (edges : ndarray byte) :
  Np.sum (map uint8_value (ravel edges))
  / inject_Z (Z.of_nat (shape0 edges * shape1 edges)) <= 255.
Proof.
  set (xs := map uint8_value (ravel edges)).
  assert (Hlen : Py.len xs = inject_Z (Z.of_nat (shape0 edges * shape1 edges))).
  { unfold Py.len, xs. now rewrite length_map, ravel_length. }
  rewrite <- Hlen.
  assert (Hall : Forall (fun x => 0 <= x <= 255) xs).
  { apply Forall_forall. intros x Hx. apply in_map_iff in Hx.
    destruct Hx as [b [<- _]]. apply uint8_value_range. }
  destruct xs as [|x xs'] eqn:Exs.
  - vm_compute. discriminate.
  - apply Qle_shift_div_r.
    + apply len_pos. discriminate.
    + apply (sum_bounds 0 255 _ Hall).
Qed.

Lemma check_face_artifacts_not_true (cv2 : Cv2) (face_image : ndarray pixel) :
  RealImageModel._check_face_artifacts cv2 face_image <> Ok true.
Proof.
  unfold RealImageModel._check_face_artifacts.
  destruct (cvtColor (gray_of_rgb cv2) face_image) as [gray|]; [|discriminate].
  cbn [Py.bind]. destruct (Canny cv2 gray 50 150) as [edges|]; [|discriminate].
  cbn [Py.bind]. intro H. injection H as H. apply gt_true_iff in H.
  pose proof (edge_density_le_255 edges). lra.
Qed.

(** Decimal numerals contain no colon, so the text after the first colon
    of a per-face cue is determined by the cue. *)
Lemma uint_colon_split (d d' : Decimal.uint) (s s' : string) :
  (NilEmpty.string_of_uint d ++ String ":" s
   = NilEmpty.string_of_uint d' ++ String ":" s')%string ->
  s = s'.
Proof.
  revert d'.
  induction d; destruct d'; cbn; intro H;
    try congruence; injection H as H; eauto.
Qed.

Lemma face_cue_verdict (i j : nat) (b b' : bool) :
  Spec.face_cue i b = Spec.face_cue j b' -> b = b'.
Proof.
  unfold Spec.face_cue. intro H. cbn in H. injection H as H.
  destruct b, b'; try reflexivity; cbn in H;
    apply uint_colon_split in H; discriminate.
Qed.

Lemma face_loop_cues (cv2 : Cv2) (image : ndarray pixel)
  (locations : list face_location) :
  forall (i : nat) (cues : list string) (c : string),
    In c (RealImageModel.face_loop cv2 image i locations cues) ->
    In c cues \/ c = "Face analysis failed" \/ exists j, c = Spec.face_cue j false.
Proof.
  induction locations as [|loc rest IH]; intros i cues c Hc.
  - now left.
  - cbn [RealImageModel.face_loop] in Hc.
    destruct (RealImageModel._check_face_artifacts cv2
                (RealImageModel.face_region image loc)) as [[|]|] eqn:E.
    + exfalso. exact (check_face_artifacts_not_true _ _ E).
    + apply IH in Hc. destruct Hc as [Hc | Hc]; [|now right].
      apply in_app_or in Hc. destruct Hc as [Hc | [<- | []]]; [now left|].
      right. right. exists i. reflexivity.
    + apply in_app_or in Hc. destruct Hc as [Hc | [<- | []]]; [now left|].
      right. now left.
Qed.

Lemma face_loop_verdicts (cv2 : Cv2) (image : ndarray pixel)
  (locations : list face_location) (verdicts : list bool) :
  Forall2 (fun loc b =>
             RealImageModel._check_face_artifacts cv2
               (RealImageModel.face_region image loc) = Ok b)
          locations verdicts ->
  forall (i : nat) (cues : list string),
    RealImageModel.face_loop cv2 image i locations cues
    = cues ++ Spec.per_face_cues i verdicts.
Proof.
  induction 1 as [|loc b rest bs Hb _ IH]; intros i cues.
  - cbn. now rewrite app_nil_r.
  - cbn [RealImageModel.face_loop Spec.per_face_cues]. rewrite Hb.
    destruct b; rewrite IH, <- app_assoc; reflexivity.
Qed.

Lemma per_face_cues_nth (verdicts : list bool) :
  forall (k i : nat) (b : bool),
    nth_error verdicts i = Some b ->
    In (Spec.face_cue (k + i) b) (Spec.per_face_cues k verdicts).
Proof.
  induction verdicts as [|v rest IH]; intros k i b H.
  - destruct i; discriminate.
  - destruct i as [|i]; cbn in H.
    + injection H as ->. rewrite Nat.add_0_r. now left.
    + right. replace (k + S i)%nat with (S k + i)%nat by lia. now apply IH.
Qed.

(** C10. The face-artifact check returns [False] for every face region:
    the edge density (the sum of the 8-bit edge values divided by the
    pixel count) is at most 255 and is compared with 1000. Hence no cue
    list built by [_extract_visual_cues] contains a cue
    "Face k: Potential artifacts detected". *)
Theorem potential_artifacts_never_reported (cv2 : Cv2) (fr : FaceRecognition) :
  (forall edges : ndarray byte,
      Np.sum (map uint8_value (ravel edges))
      / inject_Z (Z.of_nat (shape0 edges * shape1 edges)) <= 255)
  /\ (forall face_image,
         RealImageModel._check_face_artifacts cv2 face_image <> Ok true)
  /\ (forall image_path k,
         ~ In (Spec.face_cue k true)
              (RealImageModel._extract_visual_cues cv2 fr image_path)).
Proof.
  split; [exact edge_density_le_255|].
  split; [exact (check_face_artifacts_not_true cv2)|].
  intros image_path k Hin.
  unfold RealImageModel._extract_visual_cues in Hin.
  assert (Hfail : Spec.face_cue k true <> "Face analysis failed").
  { unfold Spec.face_cue, str. cbn. destruct (Nat.to_uint (k + 1)); cbn; congruence. }
  destruct (load_image_file fr image_path) as [image|].
  2:{ destruct Hin as [Hin | []]. now apply Hfail. }
  destruct (face_locations fr image) as [locations|].
  2:{ destruct Hin as [Hin | []]. now apply Hfail. }
  destruct (Nat.ltb 0 (List.length locations)).
  - apply face_loop_cues in Hin. destruct Hin as [Hin | [Hin | [j Hin]]].
    + destruct Hin as [Hin | []]. cbn in Hin. discriminate.
    + now apply Hfail.
    + apply face_cue_verdict in Hin. discriminate.
  - destruct Hin as [Hin | []]. cbn in Hin. discriminate.
Qed.

(** ** Image: face cues on the two scoring paths *)

Lemma fallback_cues_range (a n c : Q) (cue : string) :
  In cue (RealImageModel.fallback_cues a n c) ->
  In cue ["Compression artifacts detected"; "Inconsistent noise patterns";
          "Color inconsistencies detected"; "No obvious artifacts detected"].
Proof.
  unfold RealImageModel.fallback_cues.
  destruct (gt a (6 # 10)), (gt n (6 # 10)), (lt c (4 # 10)); cbn; tauto.
Qed.

Lemma fallback_analysis_cues (F : Float) (cv2 : Cv2) (image_path cue : string) :
  In cue (visual_cues (RealImageModel._fallback_analysis F cv2 image_path)) ->
  In cue ["Compression artifacts detected"; "Inconsistent noise patterns";
          "Color inconsistencies detected"; "No obvious artifacts detected";
          "Analysis failed"].
Proof.
  unfold RealImageModel._fallback_analysis.
  destruct (RealImageModel.fallback_body F cv2 image_path) as [r|] eqn:E.
  - unfold RealImageModel.fallback_body in E.
    destruct (imread cv2 image_path) as [image|]; [|discriminate].
    cbn [Py.bind] in E.
    destruct (cvtColor (gray_of_bgr cv2) image) as [gray|]; [|discriminate].
    cbn [Py.bind] in E.
    destruct (cvtColor (hsv_of_bgr cv2) image) as [hsv|]; [|discriminate].
    cbn [Py.bind] in E.
    destruct (RealImageModel._detect_compression_artifacts cv2 gray) as [a|];
      [|discriminate].
    cbn [Py.bind] in E.
    destruct (RealImageModel._analyze_noise_patterns cv2 gray) as [n|];
      [|discriminate].
    cbn [Py.bind] in E. injection E as <-. cbn [visual_cues].
    intro H. apply fallback_cues_range in H. cbn in H |- *. tauto.
  - cbn. tauto.
Qed.

(** The claim C4 as stated fails on the fallback path: for the solid gray
    image, in which the detector finds no face, the cue list of the
    classifier-free analysis does not contain "No faces detected". *)
Lemma fallback_path_omits_face_cues :
  load_image_file Demo.faces "gray.png" = Ok Demo.gray100
  /\ face_locations Demo.faces Demo.gray100 = Ok []
  /\ ~ Spec.has_face_cues []
         (visual_cues (RealImageModel.analyze_image Demo.float Demo.cv2
                         Demo.no_classifier Demo.faces "gray.png")).
Proof.
  split; [reflexivity|]. split; [reflexivity|].
  intros [H _]. specialize (H eq_refl). revert H.
  vm_compute. intros [H | []]. discriminate H.
Qed.

(** C4 (amended). On the classifier-backed path the cue list is the list
    of face cues: "No faces detected" when the detector finds no face,
    and otherwise "Detected n face(s)" followed by one cue per face, in
    order, "Face i: Potential artifacts detected" when the artifact check
    of that face region holds and "Face i: No obvious artifacts" when it
    does not (provided face analysis does not raise). The classifier-free
    fallback path emits no face cue: its cues are the artifact cues, or
    "Analysis failed". *)
Theorem face_cues_on_primary_path (F : Float) (cv2 : Cv2) (clf : Classifier)
  (fr : FaceRecognition) (image_path : string) (probs : list Q)
  (image : ndarray pixel) (locations : list face_location) (verdicts : list bool) :
  top_probs clf image_path = Ok probs ->
  load_image_file fr image_path = Ok image ->
  face_locations fr image = Ok locations ->
  Forall2 (fun loc b =>
             RealImageModel._check_face_artifacts cv2
               (RealImageModel.face_region image loc) = Ok b)
          locations verdicts ->
  let cues := visual_cues (RealImageModel._huggingface_analysis F cv2 clf fr image_path) in
  cues = match verdicts with
         | [] => ["No faces detected"]
         | _ => ("Detected " ++ str (List.length verdicts) ++ " face(s)")%string
                :: Spec.per_face_cues 0 verdicts
         end
  /\ Spec.has_face_cues verdicts cues
  /\ (forall path cue,
         In cue (visual_cues (RealImageModel._fallback_analysis F cv2 path)) ->
         In cue ["Compression artifacts detected"; "Inconsistent noise patterns";
                 "Color inconsistencies detected"; "No obvious artifacts detected";
                 "Analysis failed"]).
Proof.
  intros Hp Hload Hloc Hv cues.
  assert (E : cues = match verdicts with
                     | [] => ["No faces detected"]
                     | _ => ("Detected " ++ str (List.length verdicts) ++ " face(s)")%string
                            :: Spec.per_face_cues 0 verdicts
                     end).
  { unfold cues, RealImageModel._huggingface_analysis. rewrite Hp. cbn [visual_cues].
    unfold RealImageModel._extract_visual_cues. rewrite Hload, Hloc.
    pose proof (Forall2_length Hv) as Hlen.
    destruct Hv as [|loc b rest bs Hb Hrest]; [reflexivity|].
    cbn [List.length Nat.ltb Nat.leb].
    rewrite (face_loop_verdicts cv2 image (loc :: rest) (b :: bs)
               (Forall2_cons _ _ Hb Hrest)).
    cbn [List.length] in Hlen. cbn [app List.length]. now rewrite Hlen. }
  split; [exact E|]. split.
  - rewrite E. split.
    + intros ->. now left.
    + intros i b Hi. destruct verdicts as [|v rest]; [destruct i; discriminate|].
      right. apply (per_face_cues_nth (v :: rest) 0 i b Hi).
  - intros path cue. apply fallback_analysis_cues.
Qed.

Lemma face_cues_on_primary_path_witness :
  let cues := visual_cues (RealImageModel._huggingface_analysis Demo.float Demo.cv2
                             Demo.resnet Demo.faces "portrait.jpg") in
  cues = ["Detected 1 face(s)"; "Face 1: No obvious artifacts"]
  /\ Spec.has_face_cues [false] cues.
Proof.
  cbv zeta.
  destruct (face_cues_on_primary_path Demo.float Demo.cv2 Demo.resnet Demo.faces
              "portrait.jpg"
              [55 # 100; 20 # 100; 10 # 100; 5 # 100; 3 # 100;
               2 # 100; 2 # 100; 1 # 100; 1 # 100; 1 # 100]
              Demo.portrait [(0, 2, 2, 0)%nat] [false]) as [H1 [H2 _]].
  - reflexivity.
  - reflexivity.
  - reflexivity.
  - constructor; [vm_compute; reflexivity | constructor].
  - split; assumption.
Defined.

(** ** Video: aggregation of the per-frame cues *)

Lemma firstn_incl {A : Type} (n : nat) (l : list A) (x : A) :
  In x (firstn n l) -> In x l.
Proof.
  intro H. rewrite <- (firstn_skipn n l). apply in_or_app. now left.
Qed.

Lemma firstn_NoDup {A : Type} (n : nat) (l : list A) :
  NoDup l -> NoDup (firstn n l).
Proof.
  intro H. rewrite <- (firstn_skipn n l) in H.
  exact (NoDup_app_remove_r _ _ H).
Qed.

Lemma list_of_set_length (py : SetOrder) (xs : list string) :
  List.length (list_of_set py xs) = List.length (nodup string_dec xs).
Proof.
  apply Permutation_length, NoDup_Permutation.
  - apply list_of_set_nodup.
  - apply NoDup_nodup.
  - intro x. rewrite list_of_set_elems, nodup_In. reflexivity.
Qed.

Lemma list_of_set_perm (py1 py2 : SetOrder) (xs : list string) :
  Permutation (list_of_set py1 xs) (list_of_set py2 xs).
Proof.
  apply NoDup_Permutation; try apply list_of_set_nodup.
  intro x. now rewrite !list_of_set_elems.
Qed.

Lemma unique_cues_facts (py : SetOrder) (all_cues : list string) :
  let out := RealVideoModel.unique_cues_of py all_cues in
  NoDup out
  /\ List.length out = Nat.min 5 (List.length (nodup string_dec all_cues))
  /\ (forall c, In c out -> In c all_cues)
  /\ ((List.length (nodup string_dec all_cues) <= 5)%nat ->
      forall c, In c all_cues -> In c out).
Proof.
  unfold RealVideoModel.unique_cues_of. cbv zeta. repeat split.
  - apply firstn_NoDup, list_of_set_nodup.
  - now rewrite length_firstn, list_of_set_length.
  - intros c Hc. apply firstn_incl in Hc. now apply list_of_set_elems in Hc.
  - intros Hle c Hc. rewrite firstn_all2.
    + now apply list_of_set_elems.
    + now rewrite list_of_set_length.
Qed.

Lemma analyze_video_aggregates (F : Float) (cv2 : Cv2) (clf : Classifier)
  (fr : FaceRecognition) (os : Os) (py : SetOrder) (video_path : string)
  (frame_results : list ModelResult) :
  let frames := RealVideoModel._extract_frames cv2 os video_path 1 in
  frames <> [] ->
  RealVideoModel.analyze_frames F cv2 clf fr os frames = Ok frame_results ->
  RealVideoModel.analyze_video F cv2 clf fr os py video_path
  = RealVideoModel.aggregate py frames frame_results.
Proof.
  cbv zeta. intros Hne Hrun. unfold RealVideoModel.analyze_video. cbv zeta.
  destruct (RealVideoModel._extract_frames cv2 os video_path 1) as [|f fs];
    [congruence|].
  now rewrite Hrun.
Qed.

(** The claim C5 as stated fails: the same three-frame clip, scored by
    the same models, yields two different aggregated cue lists under two
    iteration orders of [set]. *)
Lemma cue_order_follows_set_order :
  visual_cues (RealVideoModel.analyze_video Demo.float Demo.cv2 Demo.resnet
                 Demo.faces Demo.os Demo.insertion_order "short.mp4")
  <> visual_cues (RealVideoModel.analyze_video Demo.float Demo.cv2 Demo.resnet
                    Demo.faces Demo.os Demo.reverse_order "short.mp4").
Proof.
  vm_compute. intro H. discriminate H.
Qed.

(** C5 (amended). The aggregated cue list is [list(set(all_cues))[:5]],
    so it is a function of the per-frame cue lists and of the iteration
    order of [set]: two runs that share that order (one interpreter
    process) produce identical lists; two runs under different orders
    produce lists of the same length, which are permutations of each
    other whenever there are at most five distinct cues. *)
Theorem aggregation_stable_up_to_set_order (py1 py2 : SetOrder)
  (frames : list string) (frame_results : list ModelResult) :
  let all_cues := flat_map visual_cues frame_results in
  let run1 := visual_cues (RealVideoModel.aggregate py1 frames frame_results) in
  let run2 := visual_cues (RealVideoModel.aggregate py2 frames frame_results) in
  ((forall xs, list_of_set py1 xs = list_of_set py2 xs) -> run1 = run2)
  /\ List.length run1 = List.length run2
  /\ ((List.length (nodup string_dec all_cues) <= 5)%nat -> Permutation run1 run2).
Proof.
  cbv zeta. unfold RealVideoModel.aggregate. cbn [visual_cues].
  unfold RealVideoModel.unique_cues_of. repeat split.
  - intro H. now rewrite H.
  - now rewrite !length_firstn, !list_of_set_length.
  - intro Hle. rewrite !firstn_all2 by now rewrite list_of_set_length.
    apply list_of_set_perm.
Qed.

Lemma aggregation_stable_up_to_set_order_witness :
  Permutation
    (visual_cues (RealVideoModel.aggregate Demo.insertion_order
       ["/tmp/video_frames/frame_0.jpg"; "/tmp/video_frames/frame_1.jpg"]
       [RealImageModel._huggingface_analysis Demo.float Demo.cv2 Demo.resnet
          Demo.faces "portrait.jpg";
        RealImageModel._huggingface_analysis Demo.float Demo.cv2 Demo.resnet
          Demo.faces "gray.png"]))
    (visual_cues (RealVideoModel.aggregate Demo.reverse_order
       ["/tmp/video_frames/frame_0.jpg"; "/tmp/video_frames/frame_1.jpg"]
       [RealImageModel._huggingface_analysis Demo.float Demo.cv2 Demo.resnet
          Demo.faces "portrait.jpg";
        RealImageModel._huggingface_analysis Demo.float Demo.cv2 Demo.resnet
          Demo.faces "gray.png"])).
Proof.
  apply (aggregation_stable_up_to_set_order Demo.insertion_order
           Demo.reverse_order
           ["/tmp/video_frames/frame_0.jpg"; "/tmp/video_frames/frame_1.jpg"]
           [RealImageModel._huggingface_analysis Demo.float Demo.cv2 Demo.resnet
          Demo.faces "portrait.jpg";
        RealImageModel._huggingface_analysis Demo.float Demo.cv2 Demo.resnet
          Demo.faces "gray.png"]).
  vm_compute. lia.
Defined.

(** C6. For every video with at least one analysed frame, the aggregated
    cue list has no duplicates and at most five entries, all of them cues
    of some frame: a cue occurs in it at most once, however many frames
    produce it, and when the frames produce at most five distinct cues
    each of them occurs exactly once. *)
Theorem aggregated_cues_deduplicated (F : Float) (cv2 : Cv2) (clf : Classifier)
  (fr : FaceRecognition) (os : Os) (py : SetOrder) (video_path : string)
  (frame_results : list ModelResult) :
  let frames := RealVideoModel._extract_frames cv2 os video_path 1 in
  frames <> [] ->
  RealVideoModel.analyze_frames F cv2 clf fr os frames = Ok frame_results ->
  let all_cues := flat_map visual_cues frame_results in
  let out := visual_cues (RealVideoModel.analyze_video F cv2 clf fr os py video_path) in
  NoDup out
  /\ (List.length out <= 5)%nat
  /\ List.length out = Nat.min 5 (List.length (nodup string_dec all_cues))
  /\ (forall c, In c out -> In c all_cues)
  /\ (forall c, (count_occ string_dec out c <= 1)%nat)
  /\ ((List.length (nodup string_dec all_cues) <= 5)%nat ->
      forall c, In c all_cues -> count_occ string_dec out c = 1%nat).
Proof.
  intros frames Hne Hrun all_cues out.
  assert (E : out = RealVideoModel.unique_cues_of py all_cues).
  { unfold out. rewrite (analyze_video_aggregates F cv2 clf fr os py video_path
                           frame_results Hne Hrun). reflexivity. }
  destruct (unique_cues_facts py all_cues) as [Hnd [Hlen [Hsub Hall]]].
  rewrite <- E in Hnd, Hlen, Hsub, Hall.
  split; [exact Hnd|]. split; [lia|]. split; [exact Hlen|]. split; [exact Hsub|].
  split.
  - now apply NoDup_count_occ.
  - intros Hle c Hc. apply (proj1 (NoDup_count_occ' string_dec out) Hnd).
    now apply Hall.
Qed.

Lemma aggregated_cues_deduplicated_witness :
  let out := visual_cues (RealVideoModel.analyze_video Demo.float Demo.cv2
                            Demo.resnet Demo.faces Demo.os Demo.insertion_order
                            "short.mp4") in
  NoDup out /\ (List.length out <= 5)%nat
  /\ count_occ string_dec out "No faces detected" = 1%nat.
Proof.
  cbv zeta.
  destruct (aggregated_cues_deduplicated Demo.float Demo.cv2 Demo.resnet Demo.faces
              Demo.os Demo.insertion_order "short.mp4"
              (match RealVideoModel.analyze_frames Demo.float Demo.cv2 Demo.resnet
                       Demo.faces Demo.os
                       (RealVideoModel._extract_frames Demo.cv2 Demo.os "short.mp4" 1)
               with
               | Ok frame_results => frame_results
               | Raise _ => []
               end))
    as [Hnd [Hle [_ [_ [_ Hone]]]]].
  - vm_compute. discriminate.
  - vm_compute. reflexivity.
  - split; [exact Hnd|]. split; [exact Hle|].
    apply Hone.
    + vm_compute. lia.
    + vm_compute. tauto.
Defined.

(** ** The score invariant on the dicts of the model classes *)

Lemma invariant_intro (fs conf : Q) (cues : list string) (tag : string)
  (fa : option nat) (tc d : option Q) (sr : option Z) :
  0 <= fs <= 1 -> 0 <= conf <= 1 ->
  Spec.score_invariant
    (mk_ModelResult (gt fs (1 # 2)) conf fs (1 - fs) cues tag fa tc d sr).
Proof.
  intros Hfs Hconf. unfold Spec.score_invariant. cbn.
  repeat split; try lra.
Qed.

Lemma neutral_invariant (cues : list string) (tag : string)
  (fa : option nat) (tc d : option Q) (sr : option Z) :
  Spec.score_invariant
    (mk_ModelResult false (1 # 2) (1 # 2) (1 # 2) cues tag fa tc d sr).
Proof.
  unfold Spec.score_invariant. cbn. repeat split; try lra; discriminate.
Qed.

Lemma min_unit (x : Q) : 0 <= x -> 0 <= Py.min x 1 <= 1.
Proof.
  intro Hx. split; [apply min_glb; lra | apply min_le_r].
Qed.

Lemma capped_confidence (fs k b cap : Q) :
  0 <= fs <= 1 -> 0 <= k -> 0 <= b -> 0 <= cap <= 1 ->
  0 <= Py.min (fs * k + b) cap <= 1.
Proof.
  intros Hfs Hk Hb Hcap. split.
  - apply min_glb; [|lra].
    assert (0 <= fs * k) by (apply Qmult_le_0_compat; lra). lra.
  - pose proof (min_le_r (fs * k + b) cap). lra.
Qed.

Lemma abs_sum_nonneg (xs : list Q) : 0 <= Np.sum (map Qabs xs).
Proof.
  apply sum_nonneg, Forall_forall. intros y Hy. apply in_map_iff in Hy.
  destruct Hy as [x [<- _]]. apply Qabs_nonneg.
Qed.

Lemma std_nonneg (F : Float) (xs : list Q) : 0 <= Np.std F xs.
Proof. unfold Np.std. apply sqrt_nonneg. Qed.

Lemma detect_compression_artifacts_range (cv2 : Cv2) (gray : ndarray Z) (a : Q) :
  RealImageModel._detect_compression_artifacts cv2 gray = Ok a -> 0 <= a <= 1.
Proof.
  unfold RealImageModel._detect_compression_artifacts.
  destruct (dct cv2 (amap inject_Z gray)) as [d|]; [|discriminate].
  cbn [Py.bind]. intro H. injection H as <-. apply min_unit.
  apply div_nonneg; [apply abs_sum_nonneg|].
  pose proof (abs_sum_nonneg (ravel d)). lra.
Qed.

Lemma analyze_noise_patterns_range (cv2 : Cv2) (gray : ndarray Z) (n : Q) :
  RealImageModel._analyze_noise_patterns cv2 gray = Ok n -> 0 <= n <= 1.
Proof.
  unfold RealImageModel._analyze_noise_patterns. cbv zeta.
  destruct (filter2D cv2 gray _) as [smoothed|]; [|discriminate].
  cbn [Py.bind]. intro H. injection H as <-. apply min_unit.
  apply div_nonneg; [apply var_nonneg | lra].
Qed.

Lemma analyze_color_consistency_range (F : Float) (hsv : ndarray pixel) :
  0 < RealImageModel._analyze_color_consistency F hsv <= 1.
Proof.
  unfold RealImageModel._analyze_color_consistency. cbv zeta.
  set (s := Np.std F _). set (v := Np.std F _).
  pose proof (std_nonneg F) as Hstd.
  assert (Hs : 0 <= s) by apply Hstd. assert (Hv : 0 <= v) by apply Hstd.
  assert (Hd : 1 <= 1 + s / 50 + v / 50).
  { assert (0 <= s / 50) by (apply div_nonneg; lra).
    assert (0 <= v / 50) by (apply div_nonneg; lra). lra. }
  assert (Hpos : 0 < 1 / (1 + s / 50 + v / 50)).
  { unfold Qdiv at 1. rewrite Qmult_1_l. apply Qinv_lt_0_compat. lra. }
  split.
  - destruct (min_cases (1 / (1 + s / 50 + v / 50)) 1) as [[_ ->] | [_ ->]]; lra.
  - apply min_le_r.
Qed.

Lemma fallback_analysis_invariant (F : Float) (cv2 : Cv2) (image_path : string) :
  let r := RealImageModel._fallback_analysis F cv2 image_path in
  Spec.score_invariant r /\ model_used r <> "Error".
Proof.
  cbv zeta. unfold RealImageModel._fallback_analysis.
  destruct (RealImageModel.fallback_body F cv2 image_path) as [r|] eqn:E.
  - unfold RealImageModel.fallback_body in E.
    destruct (imread cv2 image_path) as [image|]; [|discriminate].
    cbn [Py.bind] in E.
    destruct (cvtColor (gray_of_bgr cv2) image) as [gray|]; [|discriminate].
    cbn [Py.bind] in E.
    destruct (cvtColor (hsv_of_bgr cv2) image) as [hsv|]; [|discriminate].
    cbn [Py.bind] in E.
    destruct (RealImageModel._detect_compression_artifacts cv2 gray) as [a|] eqn:Ea;
      [|discriminate].
    cbn [Py.bind] in E.
    destruct (RealImageModel._analyze_noise_patterns cv2 gray) as [n|] eqn:En;
      [|discriminate].
    cbn [Py.bind] in E. cbv zeta in E. injection E as <-.
    pose proof (detect_compression_artifacts_range _ _ _ Ea) as Ha.
    pose proof (analyze_noise_patterns_range _ _ _ En) as Hn.
    pose proof (analyze_color_consistency_range F hsv) as Hc.
    set (c := RealImageModel._analyze_color_consistency F hsv) in *.
    assert (Hfs : 0 <= (a + n + (1 - c)) / 3 <= 1).
    { split; [apply Qle_shift_div_l | apply Qle_shift_div_r]; lra. }
    split; [|cbn; discriminate].
    apply invariant_intro; [exact Hfs|].
    apply capped_confidence; lra.
  - split; [apply neutral_invariant | cbn; discriminate].
Qed.

Lemma fake_score_from_predictions_range (F : Float) (probs : list Q) :
  (1 # 10) <= RealImageModel._calculate_fake_score_from_predictions F probs <= (9 # 10).
Proof.
  unfold RealImageModel._calculate_fake_score_from_predictions. cbv zeta.
  match goal with |- _ <= Py.min (Py.max ?x _) _ <= _ => generalize x end.
  intro x. pose proof (max_bounds x (1 # 10)) as [H1 H2]. split.
  - apply min_glb; lra.
  - apply min_le_r.
Qed.

Lemma huggingface_analysis_invariant (F : Float) (cv2 : Cv2) (clf : Classifier)
  (fr : FaceRecognition) (image_path : string) :
  let r := RealImageModel._huggingface_analysis F cv2 clf fr image_path in
  Spec.score_invariant r /\ model_used r <> "Error".
Proof.
  cbv zeta. unfold RealImageModel._huggingface_analysis.
  destruct (top_probs clf image_path) as [probs|].
  - pose proof (fake_score_from_predictions_range F probs) as Hfs.
    split; [|cbn; discriminate].
    apply invariant_intro; [lra|]. apply capped_confidence; lra.
  - apply fallback_analysis_invariant.
Qed.

Lemma analyze_image_invariant (F : Float) (cv2 : Cv2) (clf : Classifier)
  (fr : FaceRecognition) (image_path : string) :
  let r := RealImageModel.analyze_image F cv2 clf fr image_path in
  Spec.score_invariant r /\ model_used r <> "Error".
Proof.
  cbv zeta. unfold RealImageModel.analyze_image. destruct (loaded clf).
  - apply huggingface_analysis_invariant.
  - apply fallback_analysis_invariant.
Qed.

Lemma analyze_frames_invariant (F : Float) (cv2 : Cv2) (clf : Classifier)
  (fr : FaceRecognition) (os : Os) (frames : list string) :
  forall frame_results,
    RealVideoModel.analyze_frames F cv2 clf fr os frames = Ok frame_results ->
    List.length frame_results = List.length frames
    /\ Forall Spec.score_invariant frame_results.
Proof.
  induction frames as [|frame_path rest IH]; intros frame_results H.
  - cbn in H. injection H as <-. split; [reflexivity | constructor].
  - cbn [RealVideoModel.analyze_frames] in H. cbv zeta in H.
    destruct (remove os frame_path); [|discriminate]. cbn [Py.bind] in H.
    destruct (RealVideoModel.analyze_frames F cv2 clf fr os rest) as [results|];
      [|discriminate].
    cbn [Py.bind] in H. injection H as <-.
    destruct (IH results eq_refl) as [Hlen Hall]. split.
    + cbn. now rewrite Hlen.
    + constructor; [|exact Hall].
      destruct (loaded clf).
      * apply huggingface_analysis_invariant.
      * apply fallback_analysis_invariant.
Qed.

Lemma product_unit (a k : Q) : 0 <= a <= 1 -> 0 <= k <= 1 -> 0 <= a * k <= 1.
Proof.
  intros [Ha0 Ha1] [Hk0 Hk1]. split.
  - now apply Qmult_le_0_compat.
  - setoid_replace 1 with (1 * 1) by reflexivity.
    apply Qmult_le_compat_nonneg; split; assumption.
Qed.

Lemma aggregate_invariant (py : SetOrder) (frames : list string)
  (frame_results : list ModelResult) :
  frame_results <> [] ->
  Forall Spec.score_invariant frame_results ->
  Spec.score_invariant (RealVideoModel.aggregate py frames frame_results).
Proof.
  intros Hne Hall. unfold RealVideoModel.aggregate. cbv zeta.
  apply invariant_intro.
  - apply mean_bounds.
    + destruct frame_results; [congruence | discriminate].
    + apply Forall_forall. intros x Hx. apply in_map_iff in Hx.
      destruct Hx as [r [<- Hr]]. rewrite Forall_forall in Hall.
      apply (Hall r Hr).
  - apply product_unit.
    + apply mean_bounds.
      * destruct frame_results; [congruence | discriminate].
      * apply Forall_forall. intros x Hx. apply in_map_iff in Hx.
        destruct Hx as [r [<- Hr]]. rewrite Forall_forall in Hall.
        apply (Hall r Hr).
    + pose proof (temporal_consistency_range (map fake_probability frame_results)).
      lra.
Qed.

Lemma analyze_video_invariant (F : Float) (cv2 : Cv2) (clf : Classifier)
  (fr : FaceRecognition) (os : Os) (py : SetOrder) (video_path : string) :
  let r := RealVideoModel.analyze_video F cv2 clf fr os py video_path in
  Spec.score_invariant r /\ model_used r <> "Error".
Proof.
  cbv zeta. unfold RealVideoModel.analyze_video. cbv zeta.
  destruct (RealVideoModel._extract_frames cv2 os video_path 1) as [|f fs] eqn:Ef.
  - split; [apply neutral_invariant | cbn; discriminate].
  - destruct (RealVideoModel.analyze_frames F cv2 clf fr os (f :: fs))
      as [frame_results|] eqn:E.
    + destruct (analyze_frames_invariant _ _ _ _ _ _ _ E) as [Hlen Hall].
      split; [|cbn; discriminate].
      apply aggregate_invariant; [|exact Hall].
      destruct frame_results; [discriminate Hlen | discriminate].
    + split; [apply neutral_invariant | cbn; discriminate].
Qed.

Lemma analyze_audio_invariant (F : Float) (librosa : Librosa) (signal : Signal)
  (audio_path : string) :
  let r := RealAudioModel.analyze_audio F librosa signal audio_path in
  Spec.score_invariant r /\ model_used r <> "Error".
Proof.
  cbv zeta. unfold RealAudioModel.analyze_audio.
  destruct (RealAudioModel.analyze_audio_body F librosa signal audio_path)
    as [r|] eqn:E.
  2:{ split; [apply neutral_invariant | cbn; discriminate]. }
  unfold RealAudioModel.analyze_audio_body in E. cbv zeta in E.
  destruct (load librosa audio_path RealAudioModel.sample_rate_) as [audio|];
    [|discriminate].
  cbn [Py.bind] in E.
  destruct (mfcc librosa audio RealAudioModel.sample_rate_ 13) as [m|];
    [|discriminate].
  cbn [Py.bind] in E.
  destruct (spectral_centroid librosa audio RealAudioModel.sample_rate_) as [sc|];
    [|discriminate].
  cbn [Py.bind] in E.
  destruct (spectral_rolloff librosa audio RealAudioModel.sample_rate_) as [sro|];
    [|discriminate].
  cbn [Py.bind] in E.
  destruct (RealAudioModel._analyze_phase_consistency F signal audio) as [p|] eqn:Ep;
    [|discriminate].
  cbn [Py.bind] in E. injection E as <-.
  assert (Ha : 0 <= RealAudioModel._detect_audio_artifacts audio m <= 1).
  { unfold RealAudioModel._detect_audio_artifacts. cbv zeta. apply min_unit.
    apply div_nonneg; [|lra]. apply mean_nonneg, Forall_forall.
    intros y Hy. apply in_map_iff in Hy. destruct Hy as [row [<- _]].
    apply var_nonneg. }
  assert (Hs : 0 <= RealAudioModel._analyze_spectral_features F sc sro <= 1).
  { unfold RealAudioModel._analyze_spectral_features. cbv zeta. apply min_unit.
    apply div_nonneg; [|lra].
    pose proof (std_nonneg F sc). pose proof (std_nonneg F sro). lra. }
  assert (Hp : 0 <= p <= 1).
  { unfold RealAudioModel._analyze_phase_consistency in Ep.
    destruct (unwrapped_phase signal audio) as [ph|]; [|discriminate].
    cbn [Py.bind] in Ep. cbv zeta in Ep. injection Ep as <-. apply min_unit.
    apply Qmult_le_0_compat; [|lra].
    apply div_nonneg; [unfold count_true|]; apply len_nonneg. }
  set (a := RealAudioModel._detect_audio_artifacts audio m) in *.
  set (s := RealAudioModel._analyze_spectral_features F sc sro) in *.
  assert (Hfs : 0 <= (a + s + p) / 3 <= 1).
  { split; [apply Qle_shift_div_l | apply Qle_shift_div_r]; lra. }
  split; [|cbn; discriminate].
  apply invariant_intro; [exact Hfs|]. apply capped_confidence; lra.
Qed.

(** ** The public operations of [ModelManager] *)

Lemma error_result_outcome (os : Os) (file_type path : string)
  (file_id file_name : option string) (file_size : option Z)
  (upload_time : option Q) (e : string) :
  let r := ModelManager.error_result os file_type path file_id file_name
             file_size upload_time e in
  Spec.error_outcome r e /\ Database.file_type r = file_type
  /\ Database.status r = "completed".
Proof.
  cbv zeta. unfold Spec.error_outcome. cbn. repeat split; reflexivity.
Qed.

Lemma build_result_cases (os : Os) (metrics : ModelMetrics.Registry)
  (file_type path : string) (result : ModelResult)
  (file_id file_name : option string) (file_size : option Z)
  (upload_time : option Q) (extra : list (string * Database.MetaValue)) :
  (exists e, ModelManager.build_result os metrics file_type path result file_id
               file_name file_size upload_time extra = Raise e)
  \/ (exists r, ModelManager.build_result os metrics file_type path result file_id
                  file_name file_size upload_time extra = Ok r
                /\ Database.file_type r = file_type
                /\ Database.status r = "completed"
                /\ Database.is_fake r = is_fake result
                /\ Database.confidence r = confidence result
                /\ Database.model_used r = model_used result
                /\ Database.metadata r
                   = [("fake_probability", Database.VFloat (fake_probability result));
                      ("real_probability", Database.VFloat (real_probability result));
                      ("visual_cues", Database.VCues (visual_cues result))] ++ extra).
Proof.
  unfold ModelManager.build_result.
  destruct (ModelMetrics.record_prediction metrics file_type _ _) as [u|e];
    [|left; now exists e].
  cbn [Py.bind].
  destruct file_size as [n|]; [|destruct (getsize os path) as [n|e]];
    cbn [Py.bind]; try (left; now exists e);
    right; eexists; (split; [reflexivity|]); cbn; repeat split; reflexivity.
Qed.

Lemma built_result_scored (r : Database.AnalysisResult) (result : ModelResult)
  (extra : list (string * Database.MetaValue)) :
  Spec.score_invariant result ->
  model_used result <> "Error" ->
  Database.is_fake r = is_fake result ->
  Database.confidence r = confidence result ->
  Database.model_used r = model_used result ->
  Database.metadata r
  = [("fake_probability", Database.VFloat (fake_probability result));
     ("real_probability", Database.VFloat (real_probability result));
     ("visual_cues", Database.VCues (visual_cues result))] ++ extra ->
  Spec.outcome_invariant r /\ Spec.scored_outcome r.
Proof.
  intros [Hsum [Hfp [Hrp [Hc Hfake]]]] Htag Ef Ec Et Em. split.
  - exists (fake_probability result), (real_probability result).
    rewrite Em, Ec, Ef. cbn. repeat split; try reflexivity; try tauto.
  - split; [now rewrite Et|].
    exists (fake_probability result), (real_probability result), (visual_cues result).
    rewrite Em. cbn. repeat split; reflexivity.
Qed.

(** What every public operation does once the model has answered: the
    result of the [try] block if it completes, the error result built
    from the message otherwise. *)
Lemma public_result_cases (os : Os) (metrics : ModelMetrics.Registry)
  (file_type path : string) (result : ModelResult)
  (file_id file_name : option string) (file_size : option Z)
  (upload_time : option Q) (extra : list (string * Database.MetaValue))
  (body : Py.result Database.AnalysisResult) :
  (body = ModelManager.build_result os metrics file_type path result file_id
            file_name file_size upload_time extra
   \/ exists e, body = Raise e) ->
  Spec.score_invariant result ->
  model_used result <> "Error" ->
  let r := match body with
           | Ok analysis_result => analysis_result
           | Raise e => ModelManager.error_result os file_type path file_id
                          file_name file_size upload_time e
           end in
  Spec.well_formed file_type r
  /\ (Spec.outcome_invariant r \/ exists e, Spec.error_outcome r e)
  /\ (forall e, body = Raise e -> Spec.error_outcome r e)
  /\ (forall a, body = Ok a -> r = a /\ Spec.scored_outcome a).
Proof.
  intros Hbody Hinv Htag. cbv zeta.
  assert (Herr : forall e,
             let r := ModelManager.error_result os file_type path file_id
                        file_name file_size upload_time e in
             Spec.well_formed file_type r
             /\ (Spec.outcome_invariant r \/ exists e', Spec.error_outcome r e')
             /\ (forall e', Raise (A:=Database.AnalysisResult) e = Raise e' ->
                            Spec.error_outcome r e')
             /\ (forall a, Raise e = Ok a -> r = a /\ Spec.scored_outcome a)).
  { intro e. cbv zeta.
    destruct (error_result_outcome os file_type path file_id file_name file_size
                upload_time e) as [He [Hft Hst]].
    split; [split; [exact Hft | split; [exact Hst | right; now exists e]]|].
    split; [right; now exists e|]. split.
    - intros e' E. injection E as <-. exact He.
    - intros a E. discriminate E. }
  destruct Hbody as [-> | [e ->]]; [|apply Herr].
  destruct (build_result_cases os metrics file_type path result file_id file_name
              file_size upload_time extra)
    as [[e ->] | [r [-> [Hft [Hst [Ef [Ec [Et Em]]]]]]]]; [apply Herr|].
  destruct (built_result_scored r result extra Hinv Htag Ef Ec Et Em) as [Hi Hs].
  split; [split; [exact Hft | split; [exact Hst | now left]]|].
  split; [now left|]. split.
  - intros e E. discriminate E.
  - intros a E. injection E as <-. split; [reflexivity | exact Hs].
Qed.

Section PublicOperations.

Variable F : Float.
Variable cv2 : Cv2.
Variable clf : Classifier.
Variable fr : FaceRecognition.
Variable librosa : Librosa.
Variable signal : Signal.
Variable os : Os.
Variable py : SetOrder.
Variable metrics : ModelMetrics.Registry.
Variable processors : Processors.
Variable path : string.
Variables file_id file_name : option string.
Variable file_size : option Z.
Variable upload_time : option Q.

Let image_body :=
  ModelManager.analyze_image_body F cv2 clf fr os metrics path file_id file_name
    file_size upload_time.
Let image :=
  ModelManager.analyze_image F cv2 clf fr os metrics path file_id file_name
    file_size upload_time.
Let video_body :=
  ModelManager.analyze_video_body F cv2 clf fr os py metrics processors path
    file_id file_name file_size upload_time.
Let video :=
  ModelManager.analyze_video F cv2 clf fr os py metrics processors path
    file_id file_name file_size upload_time.
Let audio_body :=
  ModelManager.analyze_audio_body F librosa signal os metrics processors path
    file_id file_name file_size upload_time.
Let audio :=
  ModelManager.analyze_audio F librosa signal os metrics processors path
    file_id file_name file_size upload_time.

Lemma analyze_image_cases :
  Spec.well_formed "image" image
  /\ (Spec.outcome_invariant image \/ exists e, Spec.error_outcome image e)
  /\ (forall e, image_body = Raise e -> Spec.error_outcome image e)
  /\ (forall a, image_body = Ok a -> image = a /\ Spec.scored_outcome a).
Proof.
  unfold image, ModelManager.analyze_image. fold image_body.
  destruct (analyze_image_invariant F cv2 clf fr path) as [Hinv Htag].
  eapply public_result_cases; [|exact Hinv | exact Htag].
  unfold image_body, ModelManager.analyze_image_body.
  destruct (negb (exists_ os path)); [right; eexists; reflexivity | left; reflexivity].
Qed.

Lemma analyze_video_cases :
  Spec.well_formed "video" video
  /\ (Spec.outcome_invariant video \/ exists e, Spec.error_outcome video e)
  /\ (forall e, video_body = Raise e -> Spec.error_outcome video e)
  /\ (forall a, video_body = Ok a -> video = a /\ Spec.scored_outcome a).
Proof.
  unfold video, ModelManager.analyze_video. fold video_body.
  destruct (analyze_video_invariant F cv2 clf fr os py path) as [Hinv Htag].
  eapply public_result_cases; [|exact Hinv | exact Htag].
  unfold video_body, ModelManager.analyze_video_body.
  destruct (negb (exists_ os path)); [right; eexists; reflexivity | left; reflexivity].
Qed.

Lemma analyze_audio_cases :
  Spec.well_formed "audio" audio
  /\ (Spec.outcome_invariant audio \/ exists e, Spec.error_outcome audio e)
  /\ (forall e, audio_body = Raise e -> Spec.error_outcome audio e)
  /\ (forall a, audio_body = Ok a -> audio = a /\ Spec.scored_outcome a).
Proof.
  unfold audio, ModelManager.analyze_audio. fold audio_body.
  destruct (analyze_audio_invariant F librosa signal path) as [Hinv Htag].
  eapply public_result_cases; [|exact Hinv | exact Htag].
  unfold audio_body, ModelManager.analyze_audio_body.
  destruct (negb (exists_ os path)); [right; eexists; reflexivity | left; reflexivity].
Qed.

(** C1. Each public operation is a total function into [AnalysisResult]:
    whatever the path, the optional arguments and the behaviour of every
    capability, it returns a well-formed result and no exception reaches
    the caller. When the [try] block of the operation raises [e], the
    result is the error outcome: tagged "Error", confidence 0.0, with
    [e] stored under "error" in the metadata; this is in particular the
    case for a path that does not exist. When the block completes, its
    result is returned and carries a verdict. *)
Theorem public_operations_total :
  (Spec.well_formed "image" image
   /\ Spec.well_formed "video" video
   /\ Spec.well_formed "audio" audio)
  /\ ((forall e, image_body = Raise e -> Spec.error_outcome image e)
      /\ (forall e, video_body = Raise e -> Spec.error_outcome video e)
      /\ (forall e, audio_body = Raise e -> Spec.error_outcome audio e))
  /\ ((forall a, image_body = Ok a -> image = a /\ Spec.scored_outcome a)
      /\ (forall a, video_body = Ok a -> video = a /\ Spec.scored_outcome a)
      /\ (forall a, audio_body = Ok a -> audio = a /\ Spec.scored_outcome a))
  /\ (exists_ os path = false ->
      Spec.error_outcome image ("Image file not found: " ++ path)
      /\ Spec.error_outcome video ("Video file not found: " ++ path)
      /\ Spec.error_outcome audio ("Audio file not found: " ++ path)).
Proof.
  destruct analyze_image_cases as [Wi [_ [Ei Si]]].
  destruct analyze_video_cases as [Wv [_ [Ev Sv]]].
  destruct analyze_audio_cases as [Wa [_ [Ea Sa]]].
  split; [exact (conj Wi (conj Wv Wa))|].
  split; [exact (conj Ei (conj Ev Ea))|].
  split; [exact (conj Si (conj Sv Sa))|].
  intro Hmissing. split; [|split].
  - apply Ei. unfold image_body, ModelManager.analyze_image_body.
    now rewrite Hmissing.
  - apply Ev. unfold video_body, ModelManager.analyze_video_body.
    now rewrite Hmissing.
  - apply Ea. unfold audio_body, ModelManager.analyze_audio_body.
    now rewrite Hmissing.
Qed.

(** C2 (amended). Every outcome of the three public operations either is
    the error outcome (tagged "Error", [is_fake] false, confidence 0.0,
    metadata holding only the error message, hence no probability pair)
    or satisfies: fake and real probability sum to 1, both lie in [0,1],
    the confidence lies in [0,1] and [is_fake] is [fake_probability > 0.5].
    For audio this is stated for clips whose unwrapped phase has at least
    two samples. *)
Theorem outcome_invariant_unless_error :
  (Spec.outcome_invariant image \/ exists e, Spec.error_outcome image e)
  /\ (Spec.outcome_invariant video \/ exists e, Spec.error_outcome video e)
  /\ ((forall samples phase,
          load librosa path 16000 = Ok samples ->
          unwrapped_phase signal samples = Ok phase ->
          (2 <= List.length phase)%nat) ->
      Spec.outcome_invariant audio \/ exists e, Spec.error_outcome audio e).
Proof.
  destruct analyze_image_cases as [_ [Hi _]].
  destruct analyze_video_cases as [_ [Hv _]].
  destruct analyze_audio_cases as [_ [Ha _]].
  split; [exact Hi|]. split; [exact Hv|]. intros _. exact Ha.
Qed.

End PublicOperations.

Lemma public_operations_total_witness :
  Spec.error_outcome
    (ModelManager.analyze_image Demo.float Demo.cv2 Demo.no_classifier Demo.faces
       Demo.os Demo.metrics "missing.jpg" None None None None)
    "Image file not found: missing.jpg"
  /\ Spec.error_outcome
       (ModelManager.analyze_audio Demo.float Demo.librosa Demo.signal Demo.os
          Demo.broken_metrics Demo.processors "voice.wav" None None None None)
       "Incorrect label names".
Proof.
  split.
  - apply (public_operations_total Demo.float Demo.cv2 Demo.no_classifier Demo.faces
             Demo.librosa Demo.signal Demo.os Demo.insertion_order Demo.metrics
             Demo.processors "missing.jpg" None None None None).
    reflexivity.
  - apply (public_operations_total Demo.float Demo.cv2 Demo.no_classifier Demo.faces
             Demo.librosa Demo.signal Demo.os Demo.insertion_order
             Demo.broken_metrics Demo.processors "voice.wav" None None None None).
    vm_compute. reflexivity.
Defined.

(** The claim C2 as stated fails on the error outcome: the result for a
    path that does not exist has no "fake_probability" entry, so no
    probability pair sums to 1. *)
Lemma error_outcome_has_no_probabilities :
  ~ Spec.outcome_invariant
      (ModelManager.analyze_image Demo.float Demo.cv2 Demo.no_classifier Demo.faces
         Demo.os Demo.metrics "missing.jpg" None None None None).
Proof.
  intros [fp [rp [H _]]]. vm_compute in H. discriminate H.
Qed.

Lemma outcome_invariant_unless_error_witness :
  Spec.outcome_invariant
    (ModelManager.analyze_audio Demo.float Demo.librosa Demo.signal Demo.os
       Demo.metrics Demo.processors "voice.wav" None None None None).
Proof.
  destruct (outcome_invariant_unless_error Demo.float Demo.cv2 Demo.resnet Demo.faces
              Demo.librosa Demo.signal Demo.os Demo.insertion_order Demo.metrics
              Demo.processors "voice.wav" None None None None) as [_ [_ H]].
  destruct H as [H | [e He]].
  - intros samples phase Hl Hp. vm_compute in Hl. injection Hl as <-.
    vm_compute in Hp. injection Hp as <-. cbn [List.length]. lia.
  - exact H.
  - exfalso. destruct He as [He _]. vm_compute in He. discriminate He.
Defined.

(** ** The neutral outcomes of the video and audio paths *)

Lemma audio_failure_raises (F : Float) (librosa : Librosa) (signal : Signal)
  (audio_path : string) :
  Spec.audio_failure librosa signal audio_path ->
  exists e, RealAudioModel.analyze_audio_body F librosa signal audio_path = Raise e.
Proof.
  unfold Spec.audio_failure, RealAudioModel.analyze_audio_body. cbv zeta.
  change RealAudioModel.sample_rate_ with 16000%Z.
  destruct (load librosa audio_path 16000) as [audio|e]; [|intros _; now exists e].
  cbn [Py.bind]. intro H.
  destruct (mfcc librosa audio 16000 13) as [m|e]; [|now exists e].
  cbn [Py.bind].
  destruct (spectral_centroid librosa audio 16000) as [sc|e]; [|now exists e].
  cbn [Py.bind].
  destruct (spectral_rolloff librosa audio 16000) as [sro|e]; [|now exists e].
  cbn [Py.bind]. unfold RealAudioModel._analyze_phase_consistency.
  destruct (unwrapped_phase signal audio) as [ph|e]; [|now exists e].
  exfalso. destruct H as [[e H] | [[e H] | [[e H] | [e H]]]]; discriminate H.
Qed.

(** C3. When the frame sequence of a video is empty, [analyze_video]
    returns the fixed neutral outcome: fake probability 0.5, confidence
    0.5 and the single cue "Video analysis failed"; when decoding the clip
    or extracting a feature fails, [analyze_audio] returns the fixed
    neutral outcome with the single cue "Audio analysis failed". The
    public operations pass these values on unchanged when the file exists
    and the prediction counter accepts the record. *)
Theorem neutral_outcome_on_failure (F : Float) (cv2 : Cv2) (clf : Classifier)
  (fr : FaceRecognition) (librosa : Librosa) (signal : Signal) (os : Os)
  (py : SetOrder) (metrics : ModelMetrics.Registry) (processors : Processors)
  (video_path audio_path : string) (file_id file_name : option string)
  (file_size : option Z) (upload_time : option Q) :
  RealVideoModel._extract_frames cv2 os video_path 1 = [] ->
  Spec.audio_failure librosa signal audio_path ->
  let video := RealVideoModel.analyze_video F cv2 clf fr os py video_path in
  let audio := RealAudioModel.analyze_audio F librosa signal audio_path in
  (fake_probability video = 1 # 2 /\ confidence video = 1 # 2
   /\ visual_cues video = ["Video analysis failed"]
   /\ map Py.lower (visual_cues video) = ["video analysis failed"])
  /\ (fake_probability audio = 1 # 2 /\ confidence audio = 1 # 2
      /\ visual_cues audio = ["Audio analysis failed"]
      /\ map Py.lower (visual_cues audio) = ["audio analysis failed"])
  /\ (exists_ os video_path = true ->
      ModelMetrics.inc metrics "video" "real" "low" = Ok tt ->
      let r := ModelManager.analyze_video F cv2 clf fr os py metrics processors
                 video_path file_id file_name file_size upload_time in
      Database.confidence r = 1 # 2
      /\ Database.get "fake_probability" (Database.metadata r)
         = Some (Database.VFloat (1 # 2))
      /\ Database.get "visual_cues" (Database.metadata r)
         = Some (Database.VCues ["Video analysis failed"]))
  /\ (exists_ os audio_path = true ->
      ModelMetrics.inc metrics "audio" "real" "low" = Ok tt ->
      let r := ModelManager.analyze_audio F librosa signal os metrics processors
                 audio_path file_id file_name file_size upload_time in
      Database.confidence r = 1 # 2
      /\ Database.get "fake_probability" (Database.metadata r)
         = Some (Database.VFloat (1 # 2))
      /\ Database.get "visual_cues" (Database.metadata r)
         = Some (Database.VCues ["Audio analysis failed"])).
Proof.
  intros Hframes Hfail video audio.
  assert (Ev : video = RealVideoModel._fallback_video_analysis video_path).
  { unfold video, RealVideoModel.analyze_video. cbv zeta. now rewrite Hframes. }
  assert (Ea : audio = RealAudioModel._fallback_audio_analysis audio_path).
  { unfold audio, RealAudioModel.analyze_audio.
    destruct (audio_failure_raises F librosa signal audio_path Hfail) as [e ->].
    reflexivity. }
  split; [rewrite Ev; repeat split; reflexivity|].
  split; [rewrite Ea; repeat split; reflexivity|].
  split.
  - intros Hex Hinc r. unfold r, ModelManager.analyze_video,
      ModelManager.analyze_video_body.
    rewrite Hex. cbn [negb]. fold video. rewrite Ev.
    unfold ModelManager.build_result, ModelMetrics.record_prediction.
    cbn [is_fake confidence RealVideoModel._fallback_video_analysis].
    change (gt (1 # 2) (8 # 10)) with false. change (gt (1 # 2) (6 # 10)) with false.
    cbv iota. rewrite Hinc. cbn [Py.bind].
    unfold exists_ in Hex. unfold getsize.
    destruct file_size as [n|]; [|destruct (stat os video_path); [|discriminate]];
      cbn; repeat split; reflexivity.
  - intros Hex Hinc r. unfold r, ModelManager.analyze_audio,
      ModelManager.analyze_audio_body.
    rewrite Hex. cbn [negb]. fold audio. rewrite Ea.
    unfold ModelManager.build_result, ModelMetrics.record_prediction.
    cbn [is_fake confidence RealAudioModel._fallback_audio_analysis].
    change (gt (1 # 2) (8 # 10)) with false. change (gt (1 # 2) (6 # 10)) with false.
    cbv iota. rewrite Hinc. cbn [Py.bind].
    unfold exists_ in Hex. unfold getsize.
    destruct file_size as [n|]; [|destruct (stat os audio_path); [|discriminate]];
      cbn; repeat split; reflexivity.
Qed.

Lemma neutral_outcome_on_failure_witness :
  visual_cues (RealVideoModel.analyze_video Demo.float Demo.cv2 Demo.resnet
                 Demo.faces Demo.os Demo.insertion_order "broken.mp4")
  = ["Video analysis failed"]
  /\ visual_cues (RealAudioModel.analyze_audio Demo.float Demo.librosa Demo.signal
                    "corrupt.wav")
     = ["Audio analysis failed"]
  /\ Database.confidence
       (ModelManager.analyze_video Demo.float Demo.cv2 Demo.resnet Demo.faces
          Demo.os Demo.insertion_order Demo.metrics Demo.processors "broken.mp4"
          None None None None) = 1 # 2.
Proof.
  destruct (neutral_outcome_on_failure Demo.float Demo.cv2 Demo.resnet Demo.faces
              Demo.librosa Demo.signal Demo.os Demo.insertion_order Demo.metrics
              Demo.processors "broken.mp4" "corrupt.wav" None None None None)
    as [[_ [_ [Hv _]]] [[_ [_ [Ha _]]] [Hpub _]]].
  - reflexivity.
  - exact I.
  - split; [exact Hv|]. split; [exact Ha|].
    apply Hpub; reflexivity.
Defined.

(** ** Image: the fallback path on a uniform image *)




Lemma zero_div (x y : Q) : x == 0 -> x / y == 0.
Proof. intro Hx. unfold Qdiv. rewrite Hx. apply Qmult_0_l. Qed.








(** * Further properties of the scoring pipeline *)

(** ** Frame extraction *)

Lemma read_loop_exact (cv2 : Cv2) (frame_interval : Z) (src : list (ndarray pixel)) :
  frame_interval <> 0%Z ->
  (forall path frame, imwrite cv2 path frame = Ok tt) ->
  forall (frames : list string) (frame_count : nat),
    (List.length frames < 30)%nat ->
    RealVideoModel.read_loop cv2 frame_interval src frames frame_count
    = Ok (frames
          ++ map RealVideoModel.frame_path_of
               (firstn (30 - List.length frames)
                  (filter (fun k => Z.eqb (Z.of_nat k mod frame_interval) 0)
                     (seq frame_count (List.length src))))).
Proof.
  intros Hint Hwrite.
  assert (Ez : Z.eqb frame_interval 0 = false) by now apply Z.eqb_neq.
  induction src as [|frame rest IH]; intros frames frame_count Hlen.
  - cbn. now rewrite firstn_nil, app_nil_r.
  - cbn [RealVideoModel.read_loop List.length seq filter]. rewrite Ez.
    destruct (Z.eqb (Z.of_nat frame_count mod frame_interval) 0).
    + rewrite Hwrite. cbn [Py.bind].
      destruct (30 - List.length frames)%nat as [|n] eqn:En; [lia|].
      cbn [firstn map].
      destruct (Nat.leb 30 (List.length (frames ++ [RealVideoModel.frame_path_of frame_count])))
        eqn:E.
      * apply Nat.leb_le in E. rewrite length_app in E. cbn in E.
        assert (n = 0)%nat by lia. subst n. reflexivity.
      * apply Nat.leb_gt in E. rewrite IH by exact E.
        rewrite length_app in *. cbn [List.length] in *.
        replace (30 - (List.length frames + 1))%nat with n by lia.
        now rewrite <- app_assoc.
    + cbn [Py.bind].
      destruct (Nat.leb 30 (List.length frames)) eqn:E;
        [apply Nat.leb_le in E; lia|].
      now rewrite IH.
Qed.

(** X1. When the capture opens, the sampling interval
    [int(fps / frame_rate)] is not zero and the frame files can be
    written, [_extract_frames] returns exactly the files of the first 30
    frame indices that are multiples of the interval, in increasing
    order. *)
Theorem extract_frames_samples_multiples (cv2 : Cv2) (os : Os) (video_path : string)
  (frame_rate : Z) (cap : Capture) :
  VideoCapture cv2 video_path = Ok cap ->
  isOpened cap = true ->
  frame_rate <> 0%Z ->
  Py.int (fps cap / inject_Z frame_rate) <> 0%Z ->
  makedirs os RealVideoModel.temp_dir = Ok tt ->
  (forall path frame, imwrite cv2 path frame = Ok tt) ->
  RealVideoModel._extract_frames cv2 os video_path frame_rate
  = map RealVideoModel.frame_path_of
      (firstn 30
         (filter (fun k => Z.eqb (Z.of_nat k mod Py.int (fps cap / inject_Z frame_rate)) 0)
            (seq 0 (List.length (stream cap))))).
Proof.
  intros Hcap Hopen Hrate Hint Hdir Hwrite.
  unfold RealVideoModel._extract_frames, RealVideoModel.extract_frames_body.
  rewrite Hcap. cbn [Py.bind]. rewrite Hopen. cbn [negb].
  assert (Ez : Z.eqb frame_rate 0 = false) by now apply Z.eqb_neq.
  rewrite Ez, Hdir. cbn [Py.bind].
  rewrite (read_loop_exact cv2 _ (stream cap) Hint Hwrite [] 0) by (cbn; lia).
  reflexivity.
Qed.

Lemma extract_frames_samples_multiples_witness :
  RealVideoModel._extract_frames Examples.burst Demo.os "burst.mp4" 1
  = map (fun k => RealVideoModel.frame_path_of (3 * k)) (seq 0 30).
Proof.
  rewrite (extract_frames_samples_multiples Examples.burst Demo.os "burst.mp4" 1
             (mk_Capture true 3 (repeat (Demo.solid 4 4 (128, 128, 128)%Z) 100))).
  - vm_compute. reflexivity.
  - reflexivity.
  - reflexivity.
  - discriminate.
  - vm_compute. discriminate.
  - reflexivity.
  - intros path frame. reflexivity.
Defined.

Lemma int_of_fraction (x : Q) : 0 <= x -> x < 1 -> Py.int x = 0%Z.
Proof.
  intros H0 H1. unfold Py.int.
  assert (E : Qle_bool 0 x = true) by now apply Qle_bool_iff.
  rewrite E.
  pose proof (Qfloor_le x) as Hle. pose proof (Qlt_floor x) as Hlt.
  assert (A : inject_Z (Qfloor x) < inject_Z 1) by (change (inject_Z 1) with 1; lra).
  assert (B : inject_Z (-1) < inject_Z (Qfloor x)).
  { rewrite inject_Z_plus in Hlt. change (inject_Z 1) with 1 in Hlt.
    change (inject_Z (-1)) with (-1). lra. }
  rewrite <- Zlt_Qlt in A, B. lia.
Qed.

(** X2. A source whose frame rate is below the target rate (for instance
    a time-lapse at half a frame per second) and that delivers at least
    one frame yields no frame at all: the sampling interval is 0, the
    modulo raises and the exception is swallowed. [analyze_video] then
    returns the failure outcome although the video is decodable. *)
Theorem slow_source_yields_no_frames (F : Float) (cv2 : Cv2) (clf : Classifier)
  (fr : FaceRecognition) (os : Os) (py : SetOrder) (video_path : string)
  (cap : Capture) :
  VideoCapture cv2 video_path = Ok cap ->
  isOpened cap = true ->
  0 <= fps cap ->
  fps cap < 1 ->
  stream cap <> [] ->
  RealVideoModel._extract_frames cv2 os video_path 1 = []
  /\ RealVideoModel.analyze_video F cv2 clf fr os py video_path
     = RealVideoModel._fallback_video_analysis video_path.
Proof.
  intros Hcap Hopen H0 H1 Hne.
  assert (E : RealVideoModel._extract_frames cv2 os video_path 1 = []).
  { unfold RealVideoModel._extract_frames, RealVideoModel.extract_frames_body.
    rewrite Hcap. cbn [Py.bind]. rewrite Hopen. cbn [negb Z.eqb].
    assert (Ei : Py.int (fps cap / inject_Z 1) = 0%Z).
    { change (inject_Z 1) with 1. apply int_of_fraction.
      - apply div_nonneg; [exact H0 | discriminate].
      - apply Qlt_shift_div_r; [reflexivity | lra]. }
    rewrite Ei. destruct (makedirs os RealVideoModel.temp_dir); [|reflexivity].
    cbn [Py.bind]. destruct (stream cap) as [|frame rest]; [congruence|].
    reflexivity. }
  split; [exact E|].
  unfold RealVideoModel.analyze_video. cbv zeta. now rewrite E.
Qed.

Lemma slow_source_yields_no_frames_witness :
  visual_cues (RealVideoModel.analyze_video Demo.float Examples.timelapse Demo.resnet
                 Demo.faces Demo.os Demo.insertion_order "timelapse.mp4")
  = ["Video analysis failed"].
Proof.
  destruct (slow_source_yields_no_frames Demo.float Examples.timelapse Demo.resnet
              Demo.faces Demo.os Demo.insertion_order "timelapse.mp4"
              (mk_Capture true (1 # 2) (repeat (Demo.solid 4 4 (128, 128, 128)%Z) 5)))
    as [_ H].
  - reflexivity.
  - reflexivity.
  - discriminate.
  - reflexivity.
  - discriminate.
  - rewrite H. reflexivity.
Defined.

(** X3. [VideoProcessor.extract_frames] and
    [RealVideoModel._extract_frames] return the same frame files for
    every source and every frame rate, although the former raises on a
    capture that is not open and divides by the source frame rate: both
    failures are swallowed into the empty list that the latter returns. *)
Theorem processor_extracts_same_frames (cv2 : Cv2) (os : Os)
  (frame_count_prop : Capture -> Q) (video_path : string) (frame_rate : Z) :
  VideoProcessor.extract_frames cv2 os frame_count_prop video_path frame_rate
  = RealVideoModel._extract_frames cv2 os video_path frame_rate.
Proof.
  unfold VideoProcessor.extract_frames, VideoProcessor.extract_frames_body,
    RealVideoModel._extract_frames, RealVideoModel.extract_frames_body.
  destruct (VideoCapture cv2 video_path) as [cap|]; [|reflexivity].
  cbn [Py.bind]. destruct (isOpened cap); [|reflexivity]. cbn [negb]. cbv zeta.
  destruct (Qeq_bool (fps cap) 0) eqn:E; [|reflexivity].
  apply Qeq_bool_iff in E.
  destruct (Z.eqb frame_rate 0); [reflexivity|].
  assert (Ei : Py.int (fps cap / inject_Z frame_rate) = 0%Z).
  { apply int_of_fraction.
    - rewrite (zero_div _ _ E). apply Qle_refl.
    - rewrite (zero_div _ _ E). reflexivity. }
  rewrite Ei. destruct (makedirs os RealVideoModel.temp_dir); [|reflexivity].
  cbn [Py.bind]. destruct (stream cap); reflexivity.
Qed.

(** ** Video aggregation *)

Lemma sum_lower (lo : Q) (xs : list Q) :
  Forall (fun x => lo < x) xs -> lo * Py.len xs <= Np.sum xs.
Proof.
  induction 1 as [|x xs Hx _ IH].
  - change (Py.len (@nil Q)) with 0. change (Np.sum []) with 0. lra.
  - rewrite sum_cons, len_cons. lra.
Qed.

Lemma mean_above (lo : Q) (xs : list Q) :
  xs <> [] -> Forall (fun x => lo < x) xs -> lo < Np.mean xs.
Proof.
  intros Hne H. rewrite mean_eq. apply Qlt_shift_div_l; [now apply len_pos|].
  destruct H as [|x xs Hx Hxs]; [congruence|].
  pose proof (sum_lower lo xs Hxs). rewrite sum_cons, len_cons. lra.
Qed.

(** X4. For a video with at least one analysed frame, the reported
    confidence lies between 70% and 100% of the average per-frame
    confidence: temporal inconsistency can only lower the confidence,
    and by at most 30%. *)
Theorem video_confidence_between (F : Float) (cv2 : Cv2) (clf : Classifier)
  (fr : FaceRecognition) (os : Os) (py : SetOrder) (video_path : string)
  (frame_results : list ModelResult) :
  let frames := RealVideoModel._extract_frames cv2 os video_path 1 in
  frames <> [] ->
  RealVideoModel.analyze_frames F cv2 clf fr os frames = Ok frame_results ->
  let r := RealVideoModel.analyze_video F cv2 clf fr os py video_path in
  let avg_confidence := Np.mean (map confidence frame_results) in
  0 <= avg_confidence
  /\ (7 # 10) * avg_confidence <= confidence r <= avg_confidence.
Proof.
  intros frames Hne Hrun r avg.
  unfold r. rewrite (analyze_video_aggregates F cv2 clf fr os py video_path
                       frame_results Hne Hrun).
  unfold RealVideoModel.aggregate. cbv zeta. cbn [confidence]. fold avg.
  destruct (analyze_frames_invariant _ _ _ _ _ _ _ Hrun) as [_ Hall].
  assert (Havg : 0 <= avg).
  { apply mean_nonneg, Forall_forall. intros x Hx. apply in_map_iff in Hx.
    destruct Hx as [fr0 [<- Hr]]. rewrite Forall_forall in Hall.
    destruct (Hall fr0 Hr) as [_ [_ [_ [[Hc _] _]]]]. exact Hc. }
  pose proof (temporal_consistency_range (map fake_probability frame_results)) as Ht.
  set (t := RealVideoModel._analyze_temporal_consistency _) in *.
  assert (H1 : 0 <= avg * ((3 # 10) * t)) by (apply Qmult_le_0_compat; lra).
  assert (H2 : 0 <= avg * ((3 # 10) * (1 - t))) by (apply Qmult_le_0_compat; lra).
  split; [exact Havg|]. split.
  - setoid_replace (avg * ((7 # 10) + (3 # 10) * t))
      with ((7 # 10) * avg + avg * ((3 # 10) * t)) by ring. lra.
  - setoid_replace (avg * ((7 # 10) + (3 # 10) * t))
      with (avg - avg * ((3 # 10) * (1 - t))) by ring. lra.
Qed.

Lemma video_confidence_between_witness :
  let r := RealVideoModel.analyze_video Demo.float Demo.cv2 Demo.resnet Demo.faces
             Demo.os Demo.insertion_order "short.mp4" in
  0 <= confidence r.
Proof.
  cbv zeta.
  destruct (video_confidence_between Demo.float Demo.cv2 Demo.resnet Demo.faces
              Demo.os Demo.insertion_order "short.mp4"
              (match RealVideoModel.analyze_frames Demo.float Demo.cv2 Demo.resnet
                       Demo.faces Demo.os
                       (RealVideoModel._extract_frames Demo.cv2 Demo.os "short.mp4" 1)
               with
               | Ok frame_results => frame_results
               | Raise _ => []
               end))
    as [Havg [Hlo _]].
  - vm_compute. discriminate.
  - vm_compute. reflexivity.
  - eapply Qle_trans; [|exact Hlo].
    apply Qmult_le_0_compat; [discriminate | exact Havg].
Defined.



Lemma extract_frames_bound (cv2 : Cv2) (os : Os) (video_path : string)
  (frame_rate : Z) :
  (List.length (RealVideoModel._extract_frames cv2 os video_path frame_rate) <= 30)%nat.
Proof.
  unfold RealVideoModel._extract_frames.
  destruct (RealVideoModel.extract_frames_body cv2 os video_path frame_rate)
    as [frames|] eqn:E; [|cbn; lia].
  unfold RealVideoModel.extract_frames_body in E.
  destruct (VideoCapture cv2 video_path) as [cap|]; [|discriminate].
  cbn [Py.bind] in E.
  destruct (negb (isOpened cap)); [injection E as <-; cbn; lia|].
  destruct (Z.eqb frame_rate 0); [discriminate|].
  destruct (makedirs os RealVideoModel.temp_dir); [|discriminate].
  cbn [Py.bind] in E. eapply read_loop_bound; [|exact E]. cbn. lia.
Qed.

(** X6. The dict returned by [analyze_video] always reports
    [frames_analyzed] and [temporal_consistency]. Either it is the
    failure dict (tag "Fallback Analysis", 0 frames, the single cue
    "Video analysis failed"), or it is tagged "Temporal CV Analysis" and
    [frames_analyzed] is the number of extracted frames, between 1 and
    30; the temporal consistency lies in (0, 1]. *)
Theorem video_result_metadata (F : Float) (cv2 : Cv2) (clf : Classifier)
  (fr : FaceRecognition) (os : Os) (py : SetOrder) (video_path : string) :
  let r := RealVideoModel.analyze_video F cv2 clf fr os py video_path in
  exists n t,
    frames_analyzed r = Some n /\ temporal_consistency r = Some t
    /\ (n <= 30)%nat /\ 0 < t <= 1
    /\ ((model_used r = "Fallback Analysis" /\ n = 0%nat
         /\ visual_cues r = ["Video analysis failed"])
        \/ (model_used r = "Temporal CV Analysis" /\ (1 <= n)%nat
            /\ n = List.length (RealVideoModel._extract_frames cv2 os video_path 1))).
Proof.
  cbv zeta. unfold RealVideoModel.analyze_video. cbv zeta.
  pose proof (extract_frames_bound cv2 os video_path 1) as Hb.
  assert (Hfallback :
            exists n t,
              frames_analyzed (RealVideoModel._fallback_video_analysis video_path) = Some n
              /\ temporal_consistency (RealVideoModel._fallback_video_analysis video_path)
                 = Some t
              /\ (n <= 30)%nat /\ 0 < t <= 1
              /\ ((model_used (RealVideoModel._fallback_video_analysis video_path)
                   = "Fallback Analysis" /\ n = 0%nat
                   /\ visual_cues (RealVideoModel._fallback_video_analysis video_path)
                      = ["Video analysis failed"])
                  \/ (model_used (RealVideoModel._fallback_video_analysis video_path)
                      = "Temporal CV Analysis" /\ (1 <= n)%nat
                      /\ n = List.length
                               (RealVideoModel._extract_frames cv2 os video_path 1)))).
  { exists 0%nat, (1 # 2). cbn. repeat split; try lia; try reflexivity; try discriminate.
    left. repeat split. }
  destruct (RealVideoModel._extract_frames cv2 os video_path 1) as [|f fs] eqn:Ef;
    [exact Hfallback|].
  destruct (RealVideoModel.analyze_frames F cv2 clf fr os (f :: fs));
    [|exact Hfallback].
  unfold RealVideoModel.aggregate. cbv zeta.
  cbn [frames_analyzed temporal_consistency model_used visual_cues].
  eexists _, _. split; [reflexivity|]. split; [reflexivity|].
  split; [exact Hb|]. split; [apply temporal_consistency_range|].
  right. split; [reflexivity|]. split; [cbn; lia | reflexivity].
Qed.

Lemma analyze_frames_remove_failure (F : Float) (cv2 : Cv2) (clf : Classifier)
  (fr : FaceRecognition) (os : Os) (frames : list string) (frame_path e : string) :
  In frame_path frames ->
  remove os frame_path = Raise e ->
  exists e', RealVideoModel.analyze_frames F cv2 clf fr os frames = Raise e'.
Proof.
  intros Hin Hrm. induction frames as [|f rest IH]; [destruct Hin|].
  cbn [RealVideoModel.analyze_frames]. cbv zeta.
  destruct (remove os f) as [u|e0] eqn:Ef; [|now exists e0].
  cbn [Py.bind]. destruct Hin as [-> | Hin]; [congruence|].
  destruct (IH Hin) as [e' ->]. now exists e'.
Qed.

(** X7. If deleting the file of any extracted frame fails, the whole
    video analysis is abandoned and [analyze_video] returns the failure
    dict, whatever the frames showed. *)
Theorem undeletable_frame_fails_video (F : Float) (cv2 : Cv2) (clf : Classifier)
  (fr : FaceRecognition) (os : Os) (py : SetOrder) (video_path : string)
  (frame_path e : string) :
  In frame_path (RealVideoModel._extract_frames cv2 os video_path 1) ->
  remove os frame_path = Raise e ->
  RealVideoModel.analyze_video F cv2 clf fr os py video_path
  = RealVideoModel._fallback_video_analysis video_path.
Proof.
  intros Hin Hrm. unfold RealVideoModel.analyze_video. cbv zeta.
  destruct (RealVideoModel._extract_frames cv2 os video_path 1) as [|f fs] eqn:Ef;
    [reflexivity|].
  destruct (analyze_frames_remove_failure F cv2 clf fr os (f :: fs) frame_path e
              Hin Hrm) as [e' ->].
  reflexivity.
Qed.

Lemma undeletable_frame_fails_video_witness :
  visual_cues (RealVideoModel.analyze_video Demo.float Demo.cv2 Demo.resnet Demo.faces
                 Examples.read_only Demo.insertion_order "short.mp4")
  = ["Video analysis failed"].
Proof.
  rewrite (undeletable_frame_fails_video Demo.float Demo.cv2 Demo.resnet Demo.faces
             Examples.read_only Demo.insertion_order "short.mp4"
             "/tmp/video_frames/frame_1.jpg" "[Errno 30] Read-only file system").
  - reflexivity.
  - vm_compute. tauto.
  - reflexivity.
Defined.

(** ** Cue lists and confidence of the heuristic paths *)

Lemma three_way_cues (b1 b2 b3 : bool) (c1 c2 c3 c0 : string) :
  c1 <> c2 -> c1 <> c3 -> c2 <> c3 -> c0 <> c1 -> c0 <> c2 -> c0 <> c3 ->
  let cues := (if b1 then [c1] else []) ++ (if b2 then [c2] else [])
              ++ (if b3 then [c3] else []) in
  let out := match cues with
             | [] => [c0]
             | _ => cues
             end in
  out <> [] /\ (List.length out <= 3)%nat /\ NoDup out
  /\ (In c0 out <-> b1 = false /\ b2 = false /\ b3 = false)
  /\ (In c1 out <-> b1 = true) /\ (In c2 out <-> b2 = true)
  /\ (In c3 out <-> b3 = true).
Proof.
  intros H12 H13 H23 H01 H02 H03.
  destruct b1, b2, b3; cbn;
    (split; [discriminate|]); (split; [lia|]);
    (split; [repeat constructor; cbn; intuition congruence|]);
    repeat split; intros; intuition congruence.
Qed.

(** X8. The cue list of the classifier-free image analysis is never
    empty, has at most three entries and no duplicates; "No obvious
    artifacts detected" and "Analysis failed" only ever appear alone. *)
Theorem fallback_cue_list_shape (F : Float) (cv2 : Cv2) (image_path : string) :
  let cues := visual_cues (RealImageModel._fallback_analysis F cv2 image_path) in
  cues <> [] /\ (List.length cues <= 3)%nat /\ NoDup cues
  /\ (In "No obvious artifacts detected" cues -> cues = ["No obvious artifacts detected"])
  /\ (In "Analysis failed" cues -> cues = ["Analysis failed"]).
Proof.
  cbv zeta. unfold RealImageModel._fallback_analysis.
  destruct (RealImageModel.fallback_body F cv2 image_path) as [r|] eqn:E.
  - unfold RealImageModel.fallback_body in E.
    destruct (imread cv2 image_path) as [image|]; [|discriminate].
    cbn [Py.bind] in E.
    destruct (cvtColor (gray_of_bgr cv2) image) as [gray|]; [|discriminate].
    cbn [Py.bind] in E.
    destruct (cvtColor (hsv_of_bgr cv2) image) as [hsv|]; [|discriminate].
    cbn [Py.bind] in E.
    destruct (RealImageModel._detect_compression_artifacts cv2 gray) as [a|];
      [|discriminate].
    cbn [Py.bind] in E.
    destruct (RealImageModel._analyze_noise_patterns cv2 gray) as [n|];
      [|discriminate].
    cbn [Py.bind] in E. injection E as <-. cbn [visual_cues].
    unfold RealImageModel.fallback_cues.
    destruct (three_way_cues
                (gt a (6 # 10)) (gt n (6 # 10))
                (lt (RealImageModel._analyze_color_consistency F hsv) (4 # 10))
                "Compression artifacts detected" "Inconsistent noise patterns"
                "Color inconsistencies detected" "No obvious artifacts detected")
      as [Hne [Hlen [Hnd [H0 [H1 [H2 H3]]]]]]; try discriminate.
    cbv zeta in Hne, Hlen, Hnd, H0, H1, H2, H3.
    split; [exact Hne|]. split; [exact Hlen|]. split; [exact Hnd|]. split.
    + intro Hin. apply H0 in Hin. destruct Hin as [-> [-> ->]]. reflexivity.
    + intro Hin. exfalso.
      destruct (gt a (6 # 10)), (gt n (6 # 10)),
        (lt (RealImageModel._analyze_color_consistency F hsv) (4 # 10));
        cbn in Hin; intuition discriminate.
  - cbn. split; [discriminate|]. split; [lia|].
    split; [repeat constructor; cbn; tauto|].
    split; [intros [H | []]; discriminate H | reflexivity].
Qed.

Lemma verdict_from_confidence (fs k b cap thr : Q) :
  0 < k -> thr == k * (1 # 2) + b -> thr < cap ->
  gt fs (1 # 2) = gt (Py.min (fs * k + b) cap) thr.
Proof.
  intros Hk Hthr Hcap.
  destruct (gt fs (1 # 2)) eqn:E; symmetry.
  - apply gt_true_iff in E. apply gt_true_iff.
    assert (H : 0 < k * (fs - (1 # 2))) by (apply Qmult_lt_0_compat; lra).
    assert (H' : thr < fs * k + b).
    { setoid_replace (fs * k + b)
        with (k * (1 # 2) + b + k * (fs - (1 # 2))) by ring. lra. }
    destruct (min_cases (fs * k + b) cap) as [[_ ->] | [_ ->]]; assumption.
  - apply gt_false_iff in E. apply gt_false_iff.
    assert (H : 0 <= k * ((1 # 2) - fs)) by (apply Qmult_le_0_compat; lra).
    assert (H' : fs * k + b <= thr).
    { setoid_replace (fs * k + b)
        with (k * (1 # 2) + b - k * ((1 # 2) - fs)) by ring. lra. }
    pose proof (min_le_l (fs * k + b) cap). lra.
Qed.




Lemma classifier_confidence (fs : Q) :
  (1 # 10) <= fs <= (9 # 10) ->
  (37 # 100) <= Py.min (fs * (7 # 10) + (3 # 10)) (9 # 10) <= (9 # 10)
  /\ gt fs (1 # 2) = gt (Py.min (fs * (7 # 10) + (3 # 10)) (9 # 10)) (65 # 100).
Proof.
  intro Hfs. split; [split|].
  - apply min_glb; [|discriminate].
    assert (0 <= (fs - (1 # 10)) * (7 # 10)) by (apply Qmult_le_0_compat; lra).
    setoid_replace (fs * (7 # 10) + (3 # 10))
      with ((37 # 100) + (fs - (1 # 10)) * (7 # 10)) by ring. lra.
  - apply min_le_r.
  - apply (verdict_from_confidence fs (7 # 10) (3 # 10) (9 # 10) (65 # 100));
      reflexivity.
Qed.

(** X10. When the classifier answers, the fake probability lies in
    [0.1, 0.9], the confidence in [0.37, 0.9], and the image is reported
    fake exactly when the confidence exceeds 0.65. *)
Theorem classifier_path_ranges (F : Float) (cv2 : Cv2) (clf : Classifier)
  (fr : FaceRecognition) (image_path : string) (probs : list Q) :
  top_probs clf image_path = Ok probs ->
  let r := RealImageModel._huggingface_analysis F cv2 clf fr image_path in
  (1 # 10) <= fake_probability r <= (9 # 10)
  /\ (37 # 100) <= confidence r <= (9 # 10)
  /\ is_fake r = gt (confidence r) (65 # 100)
  /\ model_used r = "Hugging Face ResNet-50 + CV Analysis".
Proof.
  intros Hp r. unfold r, RealImageModel._huggingface_analysis. rewrite Hp.
  cbn [fake_probability confidence is_fake model_used].
  pose proof (fake_score_from_predictions_range F probs) as Hfs.
  destruct (classifier_confidence _ Hfs) as [Hc Hv].
  split; [exact Hfs|]. split; [exact Hc|]. split; [exact Hv | reflexivity].
Qed.

Lemma classifier_path_ranges_witness :
  let r := RealImageModel._huggingface_analysis Demo.float Demo.cv2 Demo.resnet
             Demo.faces "portrait.jpg" in
  (37 # 100) <= confidence r <= (9 # 10).
Proof.
  cbv zeta.
  destruct (classifier_path_ranges Demo.float Demo.cv2 Demo.resnet Demo.faces
              "portrait.jpg"
              [55 # 100; 20 # 100; 10 # 100; 5 # 100; 3 # 100;
               2 # 100; 2 # 100; 1 # 100; 1 # 100; 1 # 100])
    as [_ [H _]].
  - reflexivity.
  - exact H.
Defined.


(** ** Images that cannot be read, and the face cue list *)

(** X12. An image file that exists but that OpenCV cannot decode, with
    the classifier absent or failing, does not produce the "Error"
    outcome: the image model returns its own failure dict, and the public
    operation reports it under the tag "Error Fallback" with confidence
    0.5, verdict "not fake" and the cue "Analysis failed". *)
Theorem unreadable_image_outcome (F : Float) (cv2 : Cv2) (clf : Classifier)
  (fr : FaceRecognition) (os : Os) (metrics : ModelMetrics.Registry)
  (image_path : string) (file_id file_name : option string)
  (file_size : option Z) (upload_time : option Q) :
  imread cv2 image_path = None ->
  (loaded clf = false \/ exists e, top_probs clf image_path = Raise e) ->
  RealImageModel.analyze_image F cv2 clf fr image_path = RealImageModel.error_fallback
  /\ (exists_ os image_path = true ->
      ModelMetrics.inc metrics "image" "real" "low" = Ok tt ->
      let r := ModelManager.analyze_image F cv2 clf fr os metrics image_path
                 file_id file_name file_size upload_time in
      Database.model_used r = "Error Fallback"
      /\ Database.confidence r = 1 # 2
      /\ Database.is_fake r = false
      /\ Database.get "visual_cues" (Database.metadata r)
         = Some (Database.VCues ["Analysis failed"])).
Proof.
  intros Hread Hclf.
  assert (Ef : RealImageModel._fallback_analysis F cv2 image_path
               = RealImageModel.error_fallback).
  { unfold RealImageModel._fallback_analysis, RealImageModel.fallback_body.
    now rewrite Hread. }
  assert (E : RealImageModel.analyze_image F cv2 clf fr image_path
              = RealImageModel.error_fallback).
  { unfold RealImageModel.analyze_image.
    destruct (loaded clf) eqn:El; [|exact Ef].
    destruct Hclf as [Hl | [e He]]; [discriminate|].
    unfold RealImageModel._huggingface_analysis. now rewrite He. }
  split; [exact E|].
  intros Hex Hinc r. unfold r, ModelManager.analyze_image,
    ModelManager.analyze_image_body.
  rewrite Hex. cbn [negb]. rewrite E.
  unfold ModelManager.build_result, ModelMetrics.record_prediction.
  cbn [is_fake confidence RealImageModel.error_fallback].
  change (gt (1 # 2) (8 # 10)) with false. change (gt (1 # 2) (6 # 10)) with false.
  cbv iota. rewrite Hinc. cbn [Py.bind].
  unfold exists_ in Hex. unfold getsize.
  destruct file_size as [n|]; [|destruct (stat os image_path); [|discriminate]];
    cbn; repeat split; reflexivity.
Qed.

Lemma unreadable_image_outcome_witness :
  Database.model_used
    (ModelManager.analyze_image Demo.float Demo.cv2 Demo.no_classifier Demo.faces
       Demo.os Demo.metrics "notes.txt" None None None None)
  = "Error Fallback".
Proof.
  destruct (unreadable_image_outcome Demo.float Demo.cv2 Demo.no_classifier Demo.faces
              Demo.os Demo.metrics "notes.txt" None None None None) as [_ H].
  - reflexivity.
  - now left.
  - apply H; reflexivity.
Defined.

Lemma face_loop_shape (cv2 : Cv2) (image : ndarray pixel)
  (locations : list face_location) :
  forall (i : nat) (cues : list string),
  exists k,
    (k <= List.length locations)%nat
    /\ RealImageModel.face_loop cv2 image i locations cues
       = cues ++ map (fun j => Spec.face_cue j false) (seq i k)
         ++ (if Nat.ltb k (List.length locations)
             then ["Face analysis failed"] else []).
Proof.
  induction locations as [|loc rest IH]; intros i cues.
  - exists 0%nat. split; [lia|]. cbn. now rewrite app_nil_r.
  - cbn [RealImageModel.face_loop].
    destruct (RealImageModel._check_face_artifacts cv2
                (RealImageModel.face_region image loc)) as [[|]|] eqn:E.
    + exfalso. exact (check_face_artifacts_not_true _ _ E).
    + destruct (IH (S i) (cues ++ [("Face " ++ str (i + 1)
                                     ++ ": No obvious artifacts")%string]))
        as [k [Hk ->]].
      exists (S k). split; [cbn; lia|].
      cbn [List.length seq map]. rewrite <- app_assoc.
      change (Nat.ltb (S k) (S (List.length rest)))
        with (Nat.ltb k (List.length rest)).
      reflexivity.
    + exists 0%nat. split; [lia|]. reflexivity.
Qed.

(** X13. The cue list built by [_extract_visual_cues] has one of three
    shapes: ["Face analysis failed"] when loading or detection raises;
    ["No faces detected"]; or "Detected n face(s)" followed by
    "Face j: No obvious artifacts" for the first k faces, k <= n, and by
    "Face analysis failed" when the check raised on face k + 1 (the
    remaining faces are then not examined). *)
Theorem visual_cues_shape (cv2 : Cv2) (fr : FaceRecognition) (image_path : string) :
  let cues := RealImageModel._extract_visual_cues cv2 fr image_path in
  cues = ["Face analysis failed"]
  \/ cues = ["No faces detected"]
  \/ exists n k,
      (1 <= n)%nat /\ (k <= n)%nat
      /\ cues = ("Detected " ++ str n ++ " face(s)")%string
                :: map (fun j => Spec.face_cue j false) (seq 0 k)
                ++ (if Nat.ltb k n then ["Face analysis failed"] else []).
Proof.
  cbv zeta. unfold RealImageModel._extract_visual_cues.
  destruct (load_image_file fr image_path) as [image|]; [|now left].
  destruct (face_locations fr image) as [locations|]; [|now left].
  destruct locations as [|loc rest]; [right; now left|].
  right. right. cbn [List.length Nat.ltb Nat.leb].
  destruct (face_loop_shape cv2 image (loc :: rest) 0
              ([] ++ [("Detected " ++ str (S (List.length rest)) ++ " face(s)")%string]))
    as [k [Hk ->]].
  exists (S (List.length rest)), k. split; [lia|]. split; [exact Hk|].
  reflexivity.
Qed.

(** ** Audio *)

(** X14. The cue list of the audio analysis is never empty, has at most
    three entries and no duplicates; "No obvious audio artifacts
    detected" and "Audio analysis failed" only ever appear alone. *)
Theorem audio_cue_list_shape (F : Float) (librosa : Librosa) (signal : Signal)
  (audio_path : string) :
  let cues := visual_cues (RealAudioModel.analyze_audio F librosa signal audio_path) in
  cues <> [] /\ (List.length cues <= 3)%nat /\ NoDup cues
  /\ (In "No obvious audio artifacts detected" cues
      -> cues = ["No obvious audio artifacts detected"])
  /\ (In "Audio analysis failed" cues -> cues = ["Audio analysis failed"]).
Proof.
  cbv zeta. unfold RealAudioModel.analyze_audio.
  destruct (RealAudioModel.analyze_audio_body F librosa signal audio_path)
    as [r|] eqn:E.
  - unfold RealAudioModel.analyze_audio_body in E. cbv zeta in E.
    destruct (load librosa audio_path RealAudioModel.sample_rate_) as [audio|];
      [|discriminate].
    cbn [Py.bind] in E.
    destruct (mfcc librosa audio RealAudioModel.sample_rate_ 13) as [m|];
      [|discriminate].
    cbn [Py.bind] in E.
    destruct (spectral_centroid librosa audio RealAudioModel.sample_rate_) as [sc|];
      [|discriminate].
    cbn [Py.bind] in E.
    destruct (spectral_rolloff librosa audio RealAudioModel.sample_rate_) as [sro|];
      [|discriminate].
    cbn [Py.bind] in E.
    destruct (RealAudioModel._analyze_phase_consistency F signal audio) as [p|];
      [|discriminate].
    cbn [Py.bind] in E. injection E as <-. cbn [visual_cues].
    unfold RealAudioModel.audio_cues.
    set (b1 := gt (RealAudioModel._detect_audio_artifacts audio m) (6 # 10)).
    set (b2 := gt (RealAudioModel._analyze_spectral_features F sc sro) (6 # 10)).
    set (b3 := gt p (6 # 10)).
    destruct (three_way_cues b1 b2 b3
                "Audio compression artifacts detected" "Spectral inconsistencies found"
                "Phase inconsistencies detected" "No obvious audio artifacts detected")
      as [Hne [Hlen [Hnd [H0 _]]]]; try discriminate.
    cbv zeta in Hne, Hlen, Hnd, H0.
    split; [exact Hne|]. split; [exact Hlen|]. split; [exact Hnd|]. split.
    + intro Hin. apply H0 in Hin. destruct Hin as [-> [-> ->]]. reflexivity.
    + intro Hin. exfalso. destruct b1, b2, b3; cbn in Hin; intuition discriminate.
  - cbn. split; [discriminate|]. split; [lia|].
    split; [repeat constructor; cbn; tauto|].
    split; [intros [H | []]; discriminate H | reflexivity].
Qed.

Lemma diff_length (xs : list Q) : List.length (Np.diff xs) = (List.length xs - 1)%nat.
Proof.
  induction xs as [|x [|y ys] IH]; try reflexivity.
  cbn [Np.diff List.length] in *. rewrite IH. lia.
Qed.

Lemma count_true_le {A : Type} (p : A -> bool) (xs : list A) :
  0 <= count_true p xs <= Py.len xs.
Proof.
  unfold count_true, Py.len. split.
  - change 0 with (inject_Z 0). rewrite <- Zle_Qle. lia.
  - rewrite <- Zle_Qle. pose proof (filter_length_le p xs). lia.
Qed.

(** X15. For a clip whose phase series has at least two samples, the
    phase score is ten times the fraction of phase steps larger than
    pi/2, capped at 1: it saturates at 1 as soon as one step in ten is a
    discontinuity, and the cue "Phase inconsistencies detected" is
    triggered exactly when the fraction exceeds 6%. *)
Theorem phase_score_saturates (F : Float) (signal : Signal) (audio phase : list Q) :
  unwrapped_phase signal audio = Ok phase ->
  (2 <= List.length phase)%nat ->
  let phase_diff := Np.diff phase in
  let fraction :=
    count_true (fun d => gt (Qabs d) (pi F / 2)) phase_diff / Py.len phase_diff in
  exists score,
    RealAudioModel._analyze_phase_consistency F signal audio = Ok score
    /\ 0 <= fraction <= 1
    /\ ((1 # 10) <= fraction -> score == 1)
    /\ (fraction <= (1 # 10) -> score == 10 * fraction)
    /\ gt score (6 # 10) = gt fraction (6 # 100).
Proof.
  intros Hph Hlen phase_diff fraction.
  unfold RealAudioModel._analyze_phase_consistency. rewrite Hph. cbn [Py.bind].
  cbv zeta. fold phase_diff. fold fraction.
  eexists. split; [reflexivity|].
  assert (Hpos : 0 < Py.len phase_diff).
  { apply len_pos. intro E. pose proof (diff_length phase) as L.
    fold phase_diff in L. rewrite E in L. cbn in L. lia. }
  assert (Hfrac : 0 <= fraction <= 1).
  { unfold fraction.
    destruct (count_true_le (fun d => gt (Qabs d) (pi F / 2)) phase_diff) as [H0 H1].
    split; [apply Qle_shift_div_l | apply Qle_shift_div_r]; lra. }
  clearbody fraction. split; [exact Hfrac|].
  destruct (min_cases (fraction * 10) 1) as [[H E] | [H E]]; rewrite E.
  - split; [reflexivity|]. split; [intro; lra|].
    symmetry. transitivity true; [apply gt_true_iff; lra|].
    symmetry. apply gt_true_iff. reflexivity.
  - split; [intro; lra|]. split; [intro; ring|].
    destruct (gt fraction (6 # 100)) eqn:G.
    + apply gt_true_iff in G. apply gt_true_iff. lra.
    + apply gt_false_iff in G. apply gt_false_iff. lra.
Qed.

Lemma phase_score_saturates_witness :
  exists score,
    RealAudioModel._analyze_phase_consistency Demo.float Demo.signal
      [0; 1 # 2; 1; 1 # 2; 0; - (1 # 2); - 1; - (1 # 2)] = Ok score
    /\ 0 <= score.
Proof.
  destruct (phase_score_saturates Demo.float Demo.signal
              [0; 1 # 2; 1; 1 # 2; 0; - (1 # 2); - 1; - (1 # 2)]
              (map (fun x => x * 3) [0; 1 # 2; 1; 1 # 2; 0; - (1 # 2); - 1; - (1 # 2)]))
    as [score [Hs [[H0 _] [_ [Hlin _]]]]].
  - reflexivity.
  - cbn. lia.
  - exists score. split; [exact Hs|].
    destruct (Qlt_le_dec (1 # 10) (count_true
                (fun d => gt (Qabs d) (pi Demo.float / 2))
                (Np.diff (map (fun x => x * 3)
                   [0; 1 # 2; 1; 1 # 2; 0; - (1 # 2); - 1; - (1 # 2)]))
              / Py.len (Np.diff (map (fun x => x * 3)
                   [0; 1 # 2; 1; 1 # 2; 0; - (1 # 2); - 1; - (1 # 2)]))))
      as [Hgt | Hle].
    + vm_compute in Hgt. discriminate Hgt.
    + rewrite (Hlin Hle). cbv zeta in H0. lra.
Defined.

(** ** File information in the public result *)

Lemma result_keeps_file_info (os : Os) (metrics : ModelMetrics.Registry)
  (file_type path : string) (result : ModelResult) (fid fname : string)
  (fsize : Z) (utime : Q) (extra : list (string * Database.MetaValue)) :
  let r := match ModelManager.build_result os metrics file_type path result
                   (Some fid) (Some fname) (Some fsize) (Some utime) extra with
           | Ok analysis_result => analysis_result
           | Raise e => ModelManager.error_result os file_type path (Some fid)
                          (Some fname) (Some fsize) (Some utime) e
           end in
  Database.file_id r = fid /\ Database.file_name r = fname
  /\ Database.file_size r = fsize /\ Database.upload_time r = utime
  /\ Database.file_type r = file_type.
Proof.
  cbv zeta. unfold ModelManager.build_result.
  destruct (ModelMetrics.record_prediction metrics file_type _ _);
    cbn; repeat split; reflexivity.
Qed.

(** X16. The file identifier, name, size and upload time that a caller
    passes to a public operation are returned unchanged in the result,
    whether the analysis succeeds or ends in the error outcome. Without
    them, the error outcome for a path that does not exist reports size
    0, the base name of the path and a fresh identifier. *)
Theorem file_info_passed_through (F : Float) (cv2 : Cv2) (clf : Classifier)
  (fr : FaceRecognition) (librosa : Librosa) (signal : Signal) (os : Os)
  (py : SetOrder) (metrics : ModelMetrics.Registry) (processors : Processors)
  (path fid fname : string) (fsize : Z) (utime : Q) :
  let given (r : Database.AnalysisResult) :=
    Database.file_id r = fid /\ Database.file_name r = fname
    /\ Database.file_size r = fsize /\ Database.upload_time r = utime in
  let defaulted (r : Database.AnalysisResult) :=
    exists_ os path = false ->
    Database.file_id r = uuid4 os /\ Database.file_name r = basename os path
    /\ Database.file_size r = 0%Z /\ Database.upload_time r = utcnow os in
  (given (ModelManager.analyze_image F cv2 clf fr os metrics path
            (Some fid) (Some fname) (Some fsize) (Some utime))
   /\ given (ModelManager.analyze_video F cv2 clf fr os py metrics processors path
               (Some fid) (Some fname) (Some fsize) (Some utime))
   /\ given (ModelManager.analyze_audio F librosa signal os metrics processors path
               (Some fid) (Some fname) (Some fsize) (Some utime)))
  /\ (defaulted (ModelManager.analyze_image F cv2 clf fr os metrics path
                   None None None None)
      /\ defaulted (ModelManager.analyze_video F cv2 clf fr os py metrics processors
                      path None None None None)
      /\ defaulted (ModelManager.analyze_audio F librosa signal os metrics processors
                      path None None None None)).
Proof.
  cbv zeta. split.
  - unfold ModelManager.analyze_image, ModelManager.analyze_image_body,
      ModelManager.analyze_video, ModelManager.analyze_video_body,
      ModelManager.analyze_audio, ModelManager.analyze_audio_body.
    destruct (negb (exists_ os path)).
    + cbn. repeat split; reflexivity.
    + repeat split;
        match goal with
        | |- context [ModelManager.build_result ?o ?m ?ft ?p ?res _ _ _ _ ?ex] =>
            destruct (result_keeps_file_info o m ft p res fid fname fsize utime ex)
              as [H1 [H2 [H3 [H4 _]]]]; assumption
        end.
  - unfold ModelManager.analyze_image, ModelManager.analyze_image_body,
      ModelManager.analyze_video, ModelManager.analyze_video_body,
      ModelManager.analyze_audio, ModelManager.analyze_audio_body.
    split; [|split]; intro Hex; rewrite Hex; cbn [negb];
      unfold ModelManager.error_result, ModelManager.or_default;
      cbn [Database.file_id Database.file_name Database.file_size
           Database.upload_time];
      unfold exists_ in Hex; destruct (stat os path); try discriminate;
      repeat split; reflexivity.
Qed.

Lemma file_info_passed_through_witness :
  Database.file_size
    (ModelManager.analyze_image Demo.float Demo.cv2 Demo.no_classifier Demo.faces
       Demo.os Demo.metrics "missing.jpg" None None None None) = 0%Z.
Proof.
  destruct (file_info_passed_through Demo.float Demo.cv2 Demo.no_classifier Demo.faces
              Demo.librosa Demo.signal Demo.os Demo.insertion_order Demo.metrics
              Demo.processors "missing.jpg" "id" "name" 0 0) as [_ [H _]].
  destruct H as [_ [_ [H _]]]; [reflexivity | exact H].
Defined.

(** ** [VideoProcessor.analyze_temporal_consistency] *)

Section TemporalConsistency.

Variable fr : FaceRecognition.
Variable os : Os.
Variable face_distance : list Q -> list Q -> result Q.

(** What the comparison loops maintain: every score appended so far
    comes from a distance below 0.6. *)
Let sound (upper : bool) (t : VideoProcessor.tally) : Prop :=
  Forall (fun x => (4 # 10) < x /\ (upper = true -> x <= 1)) (fst t).

Let bounded (upper : bool) : Prop :=
  upper = true -> forall a b d, face_distance a b = Ok d -> 0 <= d.

Lemma compare_with_sound (upper : bool) (i : nat) (curr_face : Database.FaceDatum)
  (next_faces : list Database.FaceDatum) :
  bounded upper ->
  forall t t',
    sound upper t ->
    VideoProcessor.compare_with face_distance i curr_face next_faces t = Ok t' ->
    sound upper t'.
Proof.
  intro Hb. induction next_faces as [|next_face rest IH]; intros t t' Ht H.
  - cbn in H. now injection H as <-.
  - cbn [VideoProcessor.compare_with] in H.
    destruct (face_distance (Database.encoding curr_face)
                (Database.encoding next_face)) as [d|] eqn:Ed; [|discriminate].
    cbn [Py.bind] in H. destruct t as [scores artifacts].
    apply IH in H; [exact H|].
    destruct (lt d (6 # 10)) eqn:El; [|exact Ht].
    apply lt_true_iff in El. unfold sound in *. cbn [fst] in *.
    apply Forall_app. split; [exact Ht|]. constructor; [|constructor].
    split; [lra|]. intro Hu. pose proof (Hb Hu _ _ _ Ed). lra.
Qed.

Lemma compare_faces_sound (upper : bool) (i : nat)
  (current_faces next_faces : list Database.FaceDatum) :
  bounded upper ->
  forall t t',
    sound upper t ->
    VideoProcessor.compare_faces face_distance i current_faces next_faces t = Ok t' ->
    sound upper t'.
Proof.
  intro Hb. induction current_faces as [|curr_face rest IH]; intros t t' Ht H.
  - cbn in H. now injection H as <-.
  - cbn [VideoProcessor.compare_faces] in H.
    destruct (VideoProcessor.compare_with face_distance i curr_face next_faces t)
      as [t1|] eqn:E1; [|discriminate].
    cbn [Py.bind] in H. apply (IH t1 t'); [|exact H].
    exact (compare_with_sound upper i curr_face next_faces Hb t t1 Ht E1).
Qed.

Lemma pair_loop_sound (upper : bool)
  (items : list (string * list Database.FaceDatum)) :
  bounded upper ->
  forall i t t',
    sound upper t ->
    VideoProcessor.pair_loop os face_distance i items t = Ok t' ->
    sound upper t'.
Proof.
  intro Hb. induction items as [|[frame_path current_faces] rest IH];
    intros i t t' Ht H.
  - cbn in H. now injection H as <-.
  - destruct rest as [|[next_path next_faces] rest'].
    + cbn in H. now injection H as <-.
    + cbn [VideoProcessor.pair_loop] in H.
      assert (Hstep : forall t1,
                 match current_faces, next_faces with
                 | _ :: _, _ :: _ =>
                     VideoProcessor.compare_faces face_distance i current_faces
                       next_faces t
                 | _, _ => Ok t
                 end = Ok t1 -> sound upper t1).
      { intros t1 E. destruct current_faces as [|c cs].
        - now injection E as <-.
        - destruct next_faces as [|n ns].
          + now injection E as <-.
          + exact (compare_faces_sound upper i (c :: cs) (n :: ns) Hb t t1 Ht E). }
      destruct (match current_faces, next_faces with
                | _ :: _, _ :: _ =>
                    VideoProcessor.compare_faces face_distance i current_faces
                      next_faces t
                | _, _ => Ok t
                end) as [t1|]; [|discriminate].
      cbn [Py.bind] in H. destruct (remove os frame_path); [|discriminate].
      cbn [Py.bind] in H. apply (IH (S i) t1 t'); [|exact H].
      now apply Hstep.
Qed.

(** X17. The consistency score reported by
    [VideoProcessor.analyze_temporal_consistency] is always above 0.4,
    also when the analysis fails (0.5); with fewer than two frames it is
    1.0 with no artifact. When face distances are non-negative, it is at
    most 1. *)
Theorem consistency_score_above_04 (frames : list string) :
  let r := VideoProcessor.analyze_temporal_consistency fr os face_distance frames in
  (4 # 10) < fst r
  /\ ((List.length frames < 2)%nat -> r = (1, []))
  /\ ((forall a b d, face_distance a b = Ok d -> 0 <= d) -> fst r <= 1).
Proof.
  cbv zeta.
  assert (H : forall upper, bounded upper ->
             let r := VideoProcessor.analyze_temporal_consistency fr os
                        face_distance frames in
             (4 # 10) < fst r /\ (upper = true -> fst r <= 1)).
  { intros upper Hb. cbv zeta.
    unfold VideoProcessor.analyze_temporal_consistency,
      VideoProcessor.analyze_temporal_consistency_body.
    destruct (Nat.ltb (List.length frames) 2).
    { cbn. split; [reflexivity | intros _; discriminate]. }
    cbv zeta.
    destruct (VideoProcessor.pair_loop os face_distance 0
                (combine frames (map (extract_faces fr) frames)) ([], []))
      as [[scores artifacts]|] eqn:E.
    2:{ cbn. split; [reflexivity | intros _; discriminate]. }
    cbn [Py.bind].
    assert (Hs : sound upper (scores, artifacts)).
    { apply (pair_loop_sound upper (combine frames (map (extract_faces fr) frames))
               Hb 0 ([], []) (scores, artifacts)); [constructor | exact E]. }
    destruct (match frames with
              | [] => Ok tt
              | _ :: _ => remove os (last frames "")
              end).
    2:{ cbn. split; [reflexivity | intros _; discriminate]. }
    cbn [Py.bind fst]. unfold sound in Hs. cbn [fst] in Hs.
    destruct scores as [|s0 scores'].
    { split; [reflexivity | intros _; discriminate]. }
    split.
    - apply mean_above; [discriminate|].
      eapply Forall_impl; [|exact Hs]. cbn. tauto.
    - intro Hu. apply (mean_bounds (4 # 10) 1); [discriminate|].
      eapply Forall_impl; [|exact Hs]. cbn. intros x0 [Ha1 Ha2].
      specialize (Ha2 Hu). lra. }
  split; [|split].
  - apply (H false). intro Hf. discriminate Hf.
  - intro Hlen. unfold VideoProcessor.analyze_temporal_consistency,
      VideoProcessor.analyze_temporal_consistency_body.
    apply Nat.ltb_lt in Hlen. now rewrite Hlen.
  - intro Hd. apply (H true); [|reflexivity]. intros _. exact Hd.
Qed.

End TemporalConsistency.

Lemma consistency_score_above_04_witness :
  fst (VideoProcessor.analyze_temporal_consistency Demo.faces Demo.os
         Examples.first_coordinate_distance
         ["portrait.jpg"; "portrait.jpg"; "gray.png"]) <= 1.
Proof.
  apply (consistency_score_above_04 Demo.faces Demo.os
           Examples.first_coordinate_distance
           ["portrait.jpg"; "portrait.jpg"; "gray.png"]).
  intros a b d. unfold Examples.first_coordinate_distance.
  destruct a as [|x a']; [discriminate|]. destruct b as [|y b']; [discriminate|].
  intro H. assert (E : d = Qabs (x - y)) by congruence.
  rewrite E. apply Qabs_nonneg.
Defined.

(** * Properties of the upload and analysis endpoints *)

(** ** Where an upload is stored *)

Lemma has_append (c : ascii) (a b : string) :
  Str.has c (a ++ b) = (Str.has c a || Str.has c b)%bool.
Proof.
  induction a as [|x a IH]; [reflexivity|].
  cbn. rewrite IH. now rewrite orb_assoc.
Qed.

Lemma has_substring (c : ascii) (s : string) :
  Str.has c s = false -> forall n m, Str.has c (substring n m s) = false.
Proof.
  induction s as [|x s IH]; intros H n m.
  - destruct n, m; reflexivity.
  - cbn in H. apply orb_false_iff in H. destruct H as [Hx Hs].
    destruct n as [|n]; [destruct m as [|m]|]; cbn.
    + reflexivity.
    + rewrite Hx. now apply IH.
    + now apply IH.
Qed.

Lemma split_pieces (c : ascii) (s : string) :
  forall cur,
    Str.has c cur = false ->
    Forall (fun piece => Str.has c piece = false) (Str.split c s cur).
Proof.
  induction s as [|x s IH]; intros cur Hcur.
  - cbn. now constructor.
  - cbn [Str.split]. destruct (Ascii.eqb x c) eqn:E.
    + constructor; [exact Hcur|]. now apply IH.
    + apply IH. rewrite has_append, Hcur. cbn. now rewrite E.
Qed.

Lemma name_has_no_slash (path : string) : Str.has "/" (PurePath.name path) = false.
Proof.
  unfold PurePath.name, PurePath.parts.
  assert (H : Forall (fun piece => Str.has "/" piece = false)
                (filter (fun x => (negb (String.eqb x "") && negb (String.eqb x "."))%bool)
                   (Str.split "/" path EmptyString))).
  { apply Forall_forall. intros x Hx. apply filter_In in Hx. destruct Hx as [Hx _].
    pose proof (split_pieces "/" path EmptyString eq_refl) as Hall.
    rewrite Forall_forall in Hall. now apply Hall. }
  induction H as [|x l Hx Hl IH]; [reflexivity|].
  destruct l as [|y l']; [exact Hx | exact IH].
Qed.

Lemma suffix_has_no_slash (path : string) :
  Str.has "/" (PurePath.suffix path) = false.
Proof.
  unfold PurePath.suffix. cbv zeta.
  destruct (Str.rfind "." (PurePath.name path)) as [i|]; [|reflexivity].
  destruct (Nat.ltb 0 i && Nat.ltb i (String.length (PurePath.name path) - 1))%bool;
    [|reflexivity].
  apply has_substring, name_has_no_slash.
Qed.

Lemma no_slash_not_absolute (s : string) :
  Str.has "/" s = false -> Str.startswith s "/" = false.
Proof.
  destruct s as [|x s]; [reflexivity|]. cbn [Str.has]. intro H.
  apply orb_false_iff in H. destruct H as [Hx _].
  unfold Str.startswith.
  change (String.prefix "/" (String x s))
    with (if ascii_dec "/" x then String.prefix "" s else false).
  destruct (ascii_dec "/" x) as [<- | Hne]; [discriminate Hx | reflexivity].
Qed.

Lemma file_type_cases (filename t : string) :
  Upload.get_file_type filename = Respond t ->
  t = "image" \/ t = "video" \/ t = "audio".
Proof.
  unfold Upload.get_file_type. cbv zeta.
  destruct (mem _ Settings.ALLOWED_IMAGE_EXTENSIONS);
    [intro H; injection H as <-; now left|].
  destruct (mem _ Settings.ALLOWED_VIDEO_EXTENSIONS);
    [intro H; injection H as <-; right; now left|].
  destruct (mem _ Settings.ALLOWED_AUDIO_EXTENSIONS);
    [intro H; injection H as <-; right; now right | discriminate].
Qed.

(** X18. Whatever file name the client sends, the name under which an
    accepted upload is stored, the file identifier followed by the
    suffix of the client's name, contains no path separator, and the
    upload path is exactly "./uploads/<type>/<stored name>": the client's
    directories never reach the file system. *)
Theorem stored_upload_stays_in_directory (filename file_id t : string) :
  Upload.get_file_type filename = Respond t ->
  Str.has "/" file_id = false ->
  let stored := Upload.safe_filename file_id filename in
  Str.has "/" stored = false
  /\ Upload.get_upload_path t stored = ("./uploads/" ++ t ++ "/" ++ stored)%string.
Proof.
  intros Ht Hid stored.
  assert (Hs : Str.has "/" stored = false).
  { unfold stored, Upload.safe_filename.
    now rewrite has_append, Hid, suffix_has_no_slash. }
  split; [exact Hs|].
  unfold Upload.get_upload_path. cbn [OsPath.join].
  rewrite (no_slash_not_absolute stored Hs).
  destruct (file_type_cases filename t Ht) as [-> | [-> | ->]]; reflexivity.
Qed.

Lemma stored_upload_stays_in_directory_witness :
  Upload.get_upload_path "image" (Upload.safe_filename "1b4e28ba" "../../etc/x.PNG")
  = "./uploads/image/1b4e28ba.PNG".
Proof.
  destruct (stored_upload_stays_in_directory "../../etc/x.PNG" "1b4e28ba" "image")
    as [_ H].
  - reflexivity.
  - reflexivity.
  - rewrite H. reflexivity.
Defined.

(** X19. The directory in which an accepted upload is stored is
    "./uploads/<type>" with type "image", "video" or "audio"; of these
    only "./uploads/audio" is among the directories that the settings
    module creates ("images" and "videos" are created instead). *)
Theorem upload_directory_created_for_audio_only (filename t : string) :
  Upload.get_file_type filename = Respond t ->
  let directory := OsPath.join Settings.UPLOAD_DIR [t] in
  (forall stored, Upload.get_upload_path t stored = OsPath.join directory [stored])
  /\ (In directory Settings.created_directories <-> t = "audio").
Proof.
  intros Ht directory. split; [intro stored; reflexivity|].
  unfold directory.
  destruct (file_type_cases filename t Ht) as [-> | [-> | ->]]; cbn; split;
    intro H; try discriminate H; try tauto;
    repeat (destruct H as [H | H]; [discriminate H|]); destruct H.
Qed.

Lemma upload_directory_created_for_audio_only_witness :
  ~ In (OsPath.join Settings.UPLOAD_DIR ["image"]) Settings.created_directories.
Proof.
  destruct (upload_directory_created_for_audio_only "face.jpg" "image") as [_ H].
  - reflexivity.
  - intro Hin. apply H in Hin. discriminate Hin.
Defined.

(** ** The upload router *)



Lemma join_absolute (a b : string) :
  Str.startswith b "/" = true -> OsPath.join a [b] = b.
Proof. intro H. cbn [OsPath.join]. now rewrite H. Qed.

(** X21. The upload router stores a file under the name the client
    sent. When that name is an absolute path with an allowed extension,
    [os.path.join] discards the upload directory: the file is written at
    the client's path, and that path is reported back. *)
Theorem router_writes_absolute_name (write_file : string -> list byte -> result unit)
  (str_http : nat -> string -> string) (filename : string) (content : list byte) :
  Str.startswith filename "/" = true ->
  mem (Py.lower (OsPath.splitext_ext filename))
      (Settings.ALLOWED_IMAGE_EXTENSIONS ++ Settings.ALLOWED_VIDEO_EXTENSIONS
       ++ Settings.ALLOWED_AUDIO_EXTENSIONS) = true ->
  UploadRouter.upload_file write_file str_http filename content
  = match write_file filename content with
    | Ok _ => Respond [("message", "File uploaded successfully");
                       ("filename", filename); ("file_path", filename)]
    | Raise e => HTTPException 500 e
    end.
Proof.
  intros Habs Hext. unfold UploadRouter.upload_file, UploadRouter.upload_file_body.
  cbv zeta. rewrite Hext. cbn [negb]. rewrite (join_absolute _ _ Habs).
  destruct (write_file filename content); reflexivity.
Qed.

Lemma router_writes_absolute_name_witness :
  UploadRouter.upload_file (fun _ _ => Ok tt) (fun _ detail => detail)
    "/etc/cron.d/job.png" []
  = Respond [("message", "File uploaded successfully");
             ("filename", "/etc/cron.d/job.png"); ("file_path", "/etc/cron.d/job.png")].
Proof.
  rewrite (router_writes_absolute_name (fun _ _ => Ok tt) (fun _ detail => detail)
             "/etc/cron.d/job.png" []).
  - reflexivity.
  - reflexivity.
  - reflexivity.
Defined.

(** ** The direct analysis endpoints *)

Lemma analyze_direct_never_responds (write_file : Os -> string -> list byte -> result Os)
  (extensions : list string) (modality : string)
  (analyze : Os -> string -> Database.AnalysisResult)
  (os : Os) (filename : string) (content : list byte) :
  let outcome := Direct.analyze_direct write_file extensions modality analyze os
                   filename content in
  (forall body, outcome <> Respond body)
  /\ (existsb (Str.endswith (Py.lower filename)) extensions = true ->
      forall os',
        write_file os ("/tmp/" ++ filename)%string content = Ok os' ->
        (exists_ os' ("/tmp/" ++ filename)%string = true ->
         exists u, remove os' ("/tmp/" ++ filename)%string = Ok u) ->
        outcome
        = HTTPException 500
            "Analysis failed: 'AnalysisResult' object has no attribute 'prediction'").
Proof.
  cbv zeta. unfold Direct.analyze_direct. split.
  - intro body. destruct (negb (existsb _ extensions)); [discriminate|]. cbv zeta.
    destruct (write_file os _ content) as [os'|e]; cbn [Py.bind].
    + change (Direct.getattr (analyze os' ("/tmp/" ++ filename)%string) "prediction")
        with (@Raise Direct.Attr
                "'AnalysisResult' object has no attribute 'prediction'").
      cbn [Py.bind].
      destruct (exists_ os' _); [destruct (remove os' _)|]; discriminate.
    + destruct (exists_ os _); [destruct (remove os _)|]; discriminate.
  - intros Hext os' Hw Hrm. rewrite Hext. cbn [negb]. cbv zeta. rewrite Hw.
    cbn [Py.bind].
    change (Direct.getattr (analyze os' ("/tmp/" ++ filename)%string) "prediction")
      with (@Raise Direct.Attr
              "'AnalysisResult' object has no attribute 'prediction'").
    cbn [Py.bind].
    destruct (exists_ os' _); [|reflexivity].
    destruct (Hrm eq_refl) as [u ->]. reflexivity.
Qed.

(** X22. None of the three direct analysis endpoints ever returns a
    response body. Each builds its answer from [result.prediction],
    [result.confidence_score] and [result.visual_cues], which
    [AnalysisResult] does not have; the [AttributeError] is caught and
    answered with status 500, so a file with an accepted extension that
    is written, analysed and cleaned up yields "Analysis failed:
    'AnalysisResult' object has no attribute 'prediction'". *)
Theorem direct_endpoints_never_respond
  (write_file : Os -> string -> list byte -> result Os)
  (F : Float) (cv2 : Cv2) (clf : Classifier) (fr : FaceRecognition)
  (librosa : Librosa) (signal : Signal) (py : SetOrder)
  (metrics : ModelMetrics.Registry) (processors : Processors)
  (os : Os) (filename : string) (content : list byte) :
  let image := Direct.analyze_image_direct write_file F cv2 clf fr metrics os
                 filename content in
  let video := Direct.analyze_video_direct write_file F cv2 clf fr py metrics
                 processors os filename content in
  let audio := Direct.analyze_audio_direct write_file F librosa signal metrics
                 processors os filename content in
  (forall body, image <> Respond body /\ video <> Respond body /\ audio <> Respond body)
  /\ (Str.endswith (Py.lower filename) ".png" = true ->
      forall os',
        write_file os ("/tmp/" ++ filename)%string content = Ok os' ->
        remove os' ("/tmp/" ++ filename)%string = Ok tt ->
        image
        = HTTPException 500
            "Analysis failed: 'AnalysisResult' object has no attribute 'prediction'").
Proof.
  cbv zeta. unfold Direct.analyze_image_direct, Direct.analyze_video_direct,
    Direct.analyze_audio_direct. split.
  - intro body. repeat split; apply analyze_direct_never_responds.
  - intros Hext os' Hw Hrm.
    apply (analyze_direct_never_responds write_file _ "image" _ os filename content)
      with (os' := os').
    + cbn [existsb]. rewrite Hext. now rewrite !orb_true_r.
    + exact Hw.
    + intros _. now exists tt.
Qed.

Lemma direct_endpoints_never_respond_witness :
  Direct.analyze_image_direct (fun os _ _ => Ok os) Demo.float Demo.cv2
    Demo.no_classifier Demo.faces Demo.metrics Demo.os "Face.PNG" []
  = HTTPException 500
      "Analysis failed: 'AnalysisResult' object has no attribute 'prediction'".
Proof.
  apply (direct_endpoints_never_respond (fun os _ _ => Ok os) Demo.float Demo.cv2
           Demo.no_classifier Demo.faces Demo.librosa Demo.signal
           Demo.insertion_order Demo.metrics Demo.processors Demo.os "Face.PNG" [])
    with (os' := Demo.os).
  - reflexivity.
  - reflexivity.
  - reflexivity.
Defined.
